(** * PyDDM: the parameter-dependence contract and the bound family

    A shallow embedding of [pyddm/ddm/models/base.py] (class [Dependence])
    and [pyddm/ddm/models/bound.py] (classes [Bound], [BoundConstant],
    [BoundCollapsingLinear], [BoundCollapsingExponential]), with the
    properties of construction, the attribute guard, equality, rendering,
    hashing and bound evaluation proved about it.

    Modelling conventions.
    - Python 3 semantics.  A [dict] is a [gmap]: the code sorts the
      keys, tests membership and compares dicts with [==], none of which
      depends on insertion order.  The loop of [__init__] over
      [args.items()] binds each name once; the order of its visits is
      the one of [map_to_list], and shows only when one of the names
      bound is [required_parameters] itself, which the guard of the
      names bound after it then reads, or when several of the names
      cannot be bound, the first of which stops the loop.
    - Exceptions are values of [exn]; a method is a function into
      [result], and a method that mutates its receiver or a class-level
      object is a state transformer in the monad [M].
    - Floats are IEEE-754 binary64 numbers, represented by [spec_float]
      with precision 53 and maximal exponent 1024; Python ints are [Z].
    - An attribute read through the instance ([self.required_parameters],
      [self.name], [self.default_parameters]) is the instance attribute
      of that name when the instance has one, and otherwise the class
      variable of the class or of one of its bases.
    - [assert] statements are executed (the interpreter does not run
      with [-O]). *)

From Stdlib Require Import ZArith String Ascii List Lia SpecFloat.
From stdpp Require Import gmap strings list sorting pretty.

Open Scope string_scope.
Open Scope Z_scope.

(** ** Exceptions and results *)

Inductive exn :=
  | AssertionError (msg : string)
  | LookupError
  | AttributeError (attr : string)
  | TypeError
  | OverflowError
  | IndexError
  | NotImplementedError.

Inductive result (A : Type) :=
  | Ok (a : A)
  | Raise (e : exn).
Arguments Ok {A} a.
Arguments Raise {A} e.

Definition result_bind {A B} (r : result A) (k : A → result B) : result B :=
  match r with
  | Ok a => k a
  | Raise e => Raise e
  end.

(** A computation over a mutable state [S]: it returns the final state
    together with a value or the exception that aborted it.  State
    changes made before an exception is raised persist. *)
Definition M (S A : Type) : Type := S → S * result A.

Definition ret {S A} (a : A) : M S A := λ s, (s, Ok a).
Definition raise {S A} (e : exn) : M S A := λ s, (s, Raise e).
Definition bind {S A B} (m : M S A) (k : A → M S B) : M S B :=
  λ s, match m s with
       | (s', Ok a) => k a s'
       | (s', Raise e) => (s', Raise e)
       end.
Definition get {S} : M S S := λ s, (s, Ok s).
Definition put {S} (s : S) : M S unit := λ _, (s, Ok tt).
Definition assert {S} (b : bool) (msg : string) : M S unit :=
  if b then ret tt else raise (AssertionError msg).
(** A computation that reads the state without changing it. *)
Definition read {S A} (f : S → result A) : M S A := λ s, (s, f s).

Declare Scope py_scope.
Delimit Scope py_scope with py.
Notation "x <- m ;; k" := (bind m (λ x, k))
  (at level 100, m at next level, right associativity) : py_scope.
Notation "m ;; k" := (bind m (λ _, k))
  (at level 100, right associativity) : py_scope.
Notation "'try' x <- m ;; k" := (result_bind m (λ x, k))
  (at level 100, x name, m at next level, right associativity) : py_scope.

(** ** Builtins: strings, sorting *)

Module Builtins.

(** [", ".join(l)] and friends. *)
Fixpoint join (sep : string) (l : list string) : string :=
  match l with
  | [] => ""
  | [x] => x
  | x :: l' => x +:+ sep +:+ join sep l'
  end.

Definition hex_digit (n : N) : ascii :=
  ascii_of_N (if (n <? 10)%N then 48 + n else 87 + n).

(** One character of [repr] of a [str], for the quote character [q].
    Characters are read as Latin-1 code points. *)
Definition repr_char (q : ascii) (c : ascii) : string :=
  let n := N_of_ascii c in
  if (Ascii.eqb c q || Ascii.eqb c "\")%bool then String "\" (String c "")
  else if (n =? 9)%N then "\t"
  else if (n =? 10)%N then "\n"
  else if (n =? 13)%N then "\r"
  else if ((n <? 32) || (127 <=? n) && (n <=? 160) || (n =? 173))%N%bool then
    String "\" (String "x" (String (hex_digit (n / 16)) (String (hex_digit (n mod 16)) "")))
  else String c "".

Fixpoint has_char (c : ascii) (s : string) : bool :=
  match s with
  | EmptyString => false
  | String d s' => (Ascii.eqb c d || has_char c s')%bool
  end.

Fixpoint concat_map_chars (f : ascii → string) (s : string) : string :=
  match s with
  | EmptyString => ""
  | String c s' => f c +:+ concat_map_chars f s'
  end.

(** [repr(s)] for a [str]: single quotes unless the string holds a single
    quote and no double quote. *)
Definition str_repr (s : string) : string :=
  let dq : ascii := ascii_of_N 34 in
  let q : ascii :=
    if (has_char "'" s && negb (has_char dq s))%bool then dq else "'"%char in
  String q (concat_map_chars (repr_char q) s +:+ String q "").

(** [str(l)] for a list of [str]. *)
Definition str_of_str_list (l : list string) : string :=
  "[" +:+ join ", " (map str_repr l) +:+ "]".

(** [sorted(l)] for a list of [str]; [String.le] is the order of [str],
    lexicographic on code points. *)
Definition sorted (l : list string) : list string := merge_sort String.le l.

End Builtins.

(** ** Builtins: binary64 floats *)

Module Float.

Definition prec : Z := 53.
Definition emax : Z := 1024.

Abbreviation float := spec_float.

Definition mul : float → float → float := SFmul prec emax.
Definition sub : float → float → float := SFsub prec emax.
Definition div : float → float → float := SFdiv prec emax.
Definition neg : float → float := SFopp.
Definition eqb : float → float → bool := SFeqb.
Definition ltb : float → float → bool := SFltb.
Definition compare : float → float → option comparison := SFcompare.

(** [float(n)] for an int [n], rounded to nearest even; an infinite
    result is Python's [OverflowError]. *)
Definition of_int (n : Z) : result float :=
  match binary_normalize prec emax n 0 false with
  | S754_infinity _ => Raise OverflowError
  | f => Ok f
  end.

(** The literals of the sources and of the scenarios. *)
Definition zero : float := S754_zero false.
Definition one : float := S754_finite false 4503599627370496 (-52).
Definition two : float := S754_finite false 4503599627370496 (-51).
Definition half : float := S754_finite false 4503599627370496 (-53).
Definition tenth : float := S754_finite false 7205759403792794 (-56).
Definition five : float := S754_finite false 5629499534213120 (-50).
Definition twenty : float := S754_finite false 5629499534213120 (-48).
(** [1.5] and the next float after it, [1.5000000000000002] *)
Definition three_halves : float := S754_finite false 6755399441055744 (-52).
Definition three_halves_next : float := S754_finite false 6755399441055745 (-52).

(** Neither an infinity nor a NaN. *)
Definition is_finite (f : float) : bool :=
  match f with
  | S754_zero _ | S754_finite _ _ _ => true
  | S754_infinity _ | S754_nan => false
  end.

(** *** Exact comparison of an int with a float *)

(** [n ?= f] on the exact values, [None] when [f] is a NaN. *)
Definition compare_int (n : Z) (f : float) : option comparison :=
  match f with
  | S754_nan => None
  | S754_infinity s => Some (if s then Gt else Lt)
  | S754_zero _ => Some (n ?= 0)
  | S754_finite s m e =>
      let v := if s then Z.neg m else Z.pos m in
      Some (n * 2 ^ Z.max (- e) 0 ?= v * 2 ^ Z.max e 0)
  end.

(** *** [repr] of a float: the shortest decimal string that rounds back
    to the float, in the layout of the format code ['r']. *)

(** The number [a * 2^p * 10^j], as a fraction with positive denominator. *)
Definition scaled (a p j : Z) : Z * Z :=
  (a * 2 ^ Z.max p 0 * 10 ^ Z.max j 0, 2 ^ Z.max (- p) 0 * 10 ^ Z.max (- j) 0).
Definition frac_compare (x y : Z * Z) : comparison :=
  (fst x * snd y ?= fst y * snd x).
Definition frac_ltb (x y : Z * Z) : bool :=
  match frac_compare x y with Lt => true | _ => false end.
Definition frac_leb (x y : Z * Z) : bool :=
  match frac_compare x y with Gt => false | _ => true end.
Definition frac_floor (x : Z * Z) : Z := fst x / snd x.

(** The least [k], from [k0] on, with [m * 2^e < 10^k]. *)
Fixpoint decimal_point (fuel : nat) (m e k : Z) : Z :=
  match fuel with
  | O => k
  | S fuel' =>
      if frac_ltb (scaled m e 0) (scaled 1 0 k) then k
      else decimal_point fuel' m e (k + 1)
  end.

(** Is the decimal [c * 10^j] read back as the float [m * 2^e]?  The
    float's rounding interval is given in quarters of its unit in the
    last place; its end points belong to it when [m] is even. *)
Definition reads_back (m e : Z) (c j : Z) : bool :=
  let narrow := ((m =? 2 ^ 52) && (-1074 <? e))%bool in
  let lo := scaled (4 * m - (if narrow then 1 else 2)) (e - 2) 0 in
  let hi := scaled (4 * m + 2) (e - 2) 0 in
  let x := scaled c 0 j in
  if Z.even m then (frac_leb lo x && frac_leb x hi)%bool
  else (frac_ltb lo x && frac_ltb x hi)%bool.

(** The digits of the shortest decimal, tried with [n], [n+1], ...
    significant digits: [(c, j)] stands for [c * 10^j]. *)
Fixpoint shortest_digits (fuel : nat) (m e k : Z) (n : Z) : Z * Z :=
  let j := k - n in
  let c_lo := frac_floor (scaled m e (- j)) in
  let c_hi := c_lo + 1 in
  let ok_lo := reads_back m e c_lo j in
  let ok_hi := reads_back m e c_hi j in
  (* twice the distance to [c_lo], against the distance between the two *)
  let up :=
    match frac_compare (scaled (2 * m) e 0) (scaled (2 * c_lo + 1) 0 j) with
    | Gt => true
    | Eq => Z.odd c_lo
    | Lt => false
    end in
  match fuel with
  | O => (c_lo, j)
  | S fuel' =>
      if (ok_lo && ok_hi)%bool then (if up then c_hi else c_lo, j)
      else if ok_lo then (c_lo, j)
      else if ok_hi then (c_hi, j)
      else shortest_digits fuel' m e k (n + 1)
  end.

Fixpoint strip_zeros (fuel : nat) (c j : Z) : Z * Z :=
  match fuel with
  | O => (c, j)
  | S fuel' => if (c mod 10 =? 0) then strip_zeros fuel' (c / 10) (j + 1) else (c, j)
  end.

Fixpoint zeros (n : nat) : string :=
  match n with O => "" | S n' => String "0" (zeros n') end.

Definition substring_from (n : nat) (s : string) : string :=
  String.substring n (String.length s - n) s.

(** The layout: digits [ds] with the decimal point after [decpt] of
    them; an exponent is used when [decpt <= -4] or [decpt > 16]. *)
Definition layout (ds : string) (decpt : Z) : string :=
  let nd := Z.of_nat (String.length ds) in
  if ((decpt <=? -4) || (16 <? decpt))%bool then
    let x := decpt - 1 in
    let xs := pretty (Z.abs x) in
    String.substring 0 1 ds
      +:+ (if (1 <? nd) then "." +:+ substring_from 1 ds else "")
      +:+ "e" +:+ (if x <? 0 then "-" else "+")
      +:+ (if Z.abs x <? 10 then "0" else "") +:+ xs
  else if decpt <=? 0 then
    "0." +:+ zeros (Z.to_nat (- decpt)) +:+ ds
  else if nd <=? decpt then
    ds +:+ zeros (Z.to_nat (decpt - nd)) +:+ ".0"
  else
    String.substring 0 (Z.to_nat decpt) ds +:+ "." +:+ substring_from (Z.to_nat decpt) ds.

Definition repr (f : float) : string :=
  match f with
  | S754_nan => "nan"
  | S754_infinity s => if s then "-inf" else "inf"
  | S754_zero s => if s then "-0.0" else "0.0"
  | S754_finite s m e =>
      let k := decimal_point 640 (Z.pos m) e (-324) in
      let '(c, j) := shortest_digits 17 (Z.pos m) e k 1 in
      let '(c, j) := strip_zeros 17 c j in
      let ds := pretty c in
      (if s then "-" else "") +:+ layout ds (j + Z.of_nat (String.length ds))
  end.

End Float.


Import Builtins.
Open Scope py_scope.

(** ** Objects bound as parameter values *)

(** What the contract needs of a parameter value.
    - Identity, [a is b]: two values are the same object when they are
      equal as values of the model, which [py_is] decides.  A universe
      that is to hold distinct objects with equal contents gives its
      values addresses, as [located] below does.
    - [py_eq a b] is [a == b], [py_truth a] is [bool(a)] and [py_repr a]
      is [a.__repr__()].
    - [py_names a] is the value read as a list of names, which is what
      the code does with [self.required_parameters] when a parameter of
      that name shadows the class variable: [name in a], [sorted(a)],
      the iteration over [a] and [a[-1]] are taken on the list of the
      [str] objects that [a] holds, and raise [TypeError] for a value
      that is not a container (a number).
    - [py_empty_list] is the literal [[]] that [__init__] stores as
      [required_conditions].
    The values are neither classes nor dicts, their containers hold
    [str] objects only, and they render faithfully: values with one
    rendering have one truth value and hold the same names. *)
Class PyObject (value : Type) := {
  py_is :: EqDecision value;
  py_eq : value → value → bool;
  py_truth : value → bool;
  py_names : value → result (list string);
  py_repr : value → string;
  py_empty_list : value;
  py_empty_list_eq : py_eq py_empty_list py_empty_list = true;
  py_repr_truth : ∀ a b, py_repr a = py_repr b → py_truth a = py_truth b;
  py_repr_names : ∀ a b, py_repr a = py_repr b → py_names a = py_names b
}.

(** The values of the scenarios: ints, floats and the empty list.  A
    value of this type is one object: two occurrences of [VFloat f] are
    the same float object, so that [VFloat S754_nan] stands for the one
    object [math.nan]. *)
Inductive pyvalue :=
  | VInt (n : Z)
  | VFloat (f : Float.float)
  | VEmptyList.

Global Instance float_eq_dec : EqDecision Float.float.
Proof. solve_decision. Defined.

Global Instance pyvalue_eq_dec : EqDecision pyvalue.
Proof. solve_decision. Defined.

Module Value.

(** [a == b].  Ints and floats are compared on their exact values, and
    a NaN is unequal to every float, itself included. *)
Definition eq (a b : pyvalue) : bool :=
  match a, b with
  | VInt m, VInt n => (m =? n)
  | VFloat f, VFloat g => Float.eqb f g
  | VInt n, VFloat f | VFloat f, VInt n =>
      match Float.compare_int n f with Some Eq => true | _ => false end
  | VEmptyList, VEmptyList => true
  | _, _ => false
  end.

(** [bool(a)]: a number is true unless it is zero, a list unless it is
    empty. *)
Definition truth (a : pyvalue) : bool :=
  match a with
  | VInt n => negb (n =? 0)
  | VFloat (S754_zero _) => false
  | VFloat _ => true
  | VEmptyList => false
  end.

(** The names that [a] holds: none for the empty list; a number is not
    a container. *)
Definition names (a : pyvalue) : result (list string) :=
  match a with
  | VEmptyList => Ok []
  | VInt _ | VFloat _ => Raise TypeError
  end.

Definition repr (a : pyvalue) : string :=
  match a with
  | VInt n => pretty n
  | VFloat f => Float.repr f
  | VEmptyList => "[]"
  end.

(** [l * n] for a list [l]: the count [n] has to fit a machine index,
    of 64 bits. *)
Definition index_sized (n : Z) : bool := (- 2 ^ 63 <=? n) && (n <? 2 ^ 63).

(** [a * b]; a list times an int is a repetition of the list. *)
Definition mul (a b : pyvalue) : result pyvalue :=
  match a, b with
  | VInt m, VInt n => Ok (VInt (m * n))
  | VFloat f, VFloat g => Ok (VFloat (Float.mul f g))
  | VInt n, VFloat g => try f <- Float.of_int n ;; Ok (VFloat (Float.mul f g))
  | VFloat f, VInt n => try g <- Float.of_int n ;; Ok (VFloat (Float.mul f g))
  | VEmptyList, VInt n | VInt n, VEmptyList =>
      if index_sized n then Ok VEmptyList else Raise OverflowError
  | _, _ => Raise TypeError
  end.

(** [a - b] *)
Definition sub (a b : pyvalue) : result pyvalue :=
  match a, b with
  | VInt m, VInt n => Ok (VInt (m - n))
  | VFloat f, VFloat g => Ok (VFloat (Float.sub f g))
  | VInt n, VFloat g => try f <- Float.of_int n ;; Ok (VFloat (Float.sub f g))
  | VFloat f, VInt n => try g <- Float.of_int n ;; Ok (VFloat (Float.sub f g))
  | _, _ => Raise TypeError
  end.

(** [-a] *)
Definition neg (a : pyvalue) : result pyvalue :=
  match a with
  | VInt n => Ok (VInt (- n))
  | VFloat f => Ok (VFloat (Float.neg f))
  | VEmptyList => Raise TypeError
  end.

(** [a > b] *)
Definition gt (a b : pyvalue) : result bool :=
  match a, b with
  | VInt m, VInt n => Ok (n <? m)
  | VFloat f, VFloat g => Ok (Float.ltb g f)
  | VInt n, VFloat f =>
      Ok (match Float.compare_int n f with Some Gt => true | _ => false end)
  | VFloat f, VInt n =>
      Ok (match Float.compare_int n f with Some Lt => true | _ => false end)
  | VEmptyList, VEmptyList => Ok false
  | _, _ => Raise TypeError
  end.


(** [max(a, b)]: the first argument is kept unless the second is
    greater. *)
Definition max (a b : pyvalue) : result pyvalue :=
  try g <- gt b a ;; Ok (if g then b else a).

End Value.

(** ** Facts about the renderings of numbers *)

Module ReprFacts.

(** One of the characters [1] to [9]. *)
Definition nonzero_digit (c : ascii) : Prop :=
  (49 ≤ N_of_ascii c ≤ 57)%N.

Definition starts_with_nonzero_digit (s : string) : Prop :=
  ∃ c s', s = String c s' ∧ nonzero_digit c.

Lemma pretty_N_char_nonzero x : (0 < x < 10)%N → nonzero_digit (pretty_N_char x).
Proof.
  intros Hx.
  assert (x = 1 ∨ x = 2 ∨ x = 3 ∨ x = 4 ∨ x = 5 ∨ x = 6 ∨ x = 7 ∨ x = 8 ∨ x = 9)%N
    as Hcases by lia.
  unfold nonzero_digit.
  destruct Hcases as [->|[->|[->|[->|[->|[->|[->|[->| ->]]]]]]]]; simpl; lia.
Qed.

Lemma pretty_N_go_head x s : (0 < x)%N → starts_with_nonzero_digit (pretty_N_go x s).
Proof.
  revert s. induction (N.lt_wf_0 x) as [x _ IH]; intros s Hx.
  rewrite pretty_N_go_step by done.
  destruct (decide (x < 10)%N) as [Hsmall|Hbig].
  - rewrite (N.div_small x 10), (N.mod_small x 10) by done.
    rewrite pretty_N_go_0. eexists _, _. split; [done|].
    by apply pretty_N_char_nonzero.
  - apply IH; [apply N.div_lt; lia|]. apply N.div_str_pos. lia.
Qed.

Lemma pretty_pos_head p : starts_with_nonzero_digit (pretty (Z.pos p)).
Proof.
  unfold pretty, pretty_Z, pretty, pretty_positive, pretty, pretty_N.
  rewrite decide_False by done. by apply pretty_N_go_head.
Qed.


(** *** The digits of a finite float *)

Lemma decimal_point_spec fuel m e k0 :
  k0 ≤ Float.decimal_point fuel m e k0 ∧
  (Float.decimal_point fuel m e k0 = k0 ∨
   Float.frac_ltb (Float.scaled m e 0)
     (Float.scaled 1 0 (Float.decimal_point fuel m e k0 - 1)) = false).
Proof.
  revert k0. induction fuel as [|fuel IH]; intros k0; simpl.
  - split; [lia|by left].
  - destruct (Float.frac_ltb (Float.scaled m e 0) (Float.scaled 1 0 k0)) eqn:Hlt.
    + split; [lia|by left].
    + destruct (IH (k0 + 1)) as [Hle [Heq|Hprev]].
      * split; [lia|]. right. rewrite Heq.
        by replace (k0 + 1 - 1) with k0 by lia.
      * split; [lia|by right].
Qed.

Lemma shortest_digits_spec fuel m e k n c j :
  Float.shortest_digits fuel m e k n = (c, j) →
  ∃ n', n ≤ n' ∧ j = k - n' ∧
        (c = Float.frac_floor (Float.scaled m e (- j)) ∨
         c = Float.frac_floor (Float.scaled m e (- j)) + 1).
Proof.
  revert n. induction fuel as [|fuel IH]; intros n; simpl.
  - intros [= <- <-]. exists n. split_and!; [lia|done|by left].
  - repeat case_match; try (intros [= <- <-]; exists n; split_and!; [lia|done|auto]).
    intros Hrec. destruct (IH _ Hrec) as (n' & Hn' & Hj & Hc).
    exists n'. split_and!; [lia|done..].
Qed.

Lemma pow_pos_2 (a : Z) : 0 < 2 ^ Z.max a 0.
Proof. apply Z.pow_pos_nonneg; lia. Qed.

Lemma pow_pos_10 (a : Z) : 0 < 10 ^ Z.max a 0.
Proof. apply Z.pow_pos_nonneg; lia. Qed.

Lemma floor_nonneg m e j : 0 < m → 0 ≤ Float.frac_floor (Float.scaled m e j).
Proof.
  intros Hm. unfold Float.frac_floor, Float.scaled. simpl.
  pose proof (pow_pos_2 e). pose proof (pow_pos_2 (- e)).
  pose proof (pow_pos_10 j). pose proof (pow_pos_10 (- j)).
  apply Z.div_pos; nia.
Qed.

(** A number that is at least [10^k'] has a positive integer part when
    scaled by [10^(-j)] for [j <= k']. *)
Lemma floor_pos m e k' j :
  0 < m →
  Float.frac_ltb (Float.scaled m e 0) (Float.scaled 1 0 k') = false →
  j ≤ k' →
  1 ≤ Float.frac_floor (Float.scaled m e (- j)).
Proof.
  intros Hm Hge Hj.
  unfold Float.frac_ltb, Float.frac_compare, Float.frac_floor, Float.scaled in *.
  simpl in *.
  replace (- - j) with j by lia.
  pose proof (pow_pos_2 e) as HA. pose proof (pow_pos_2 (- e)) as HB.
  pose proof (pow_pos_10 k') as HP. pose proof (pow_pos_10 (- k')) as HQ.
  pose proof (pow_pos_10 j) as HR. pose proof (pow_pos_10 (- j)) as HS.
  assert (10 ^ Z.max j 0 * 10 ^ Z.max (- k') 0
          ≤ 10 ^ Z.max k' 0 * 10 ^ Z.max (- j) 0) as Hpow.
  { rewrite <- !Z.pow_add_r by lia. apply Z.pow_le_mono_r; lia. }
  set (A := 2 ^ Z.max e 0) in *. set (B := 2 ^ Z.max (- e) 0) in *.
  set (P := 10 ^ Z.max k' 0) in *. set (Q := 10 ^ Z.max (- k') 0) in *.
  set (R := 10 ^ Z.max j 0) in *. set (S := 10 ^ Z.max (- j) 0) in *.
  assert (P * B ≤ m * A * Q) as Hv.
  { change (10 ^ Z.max 0 0) with 1 in Hge. change (2 ^ Z.max 0 0) with 1 in Hge.
    change (2 ^ Z.max (- 0) 0) with 1 in Hge. change (10 ^ Z.max (- 0) 0) with 1 in Hge.
    destruct (m * A * 1 * (1 * Q) ?= 1 * 1 * P * (B * 1)) eqn:Hcmp; try done.
    - apply Z.compare_eq in Hcmp. lia.
    - apply Z.compare_gt_iff in Hcmp. lia. }
  apply Z.div_le_lower_bound; [nia|].
  assert (B * R * Q ≤ m * A * S * Q) as Hq.
  { transitivity (B * (P * S)); [nia|]. nia. }
  nia.
Qed.

Lemma digits_of_finite m e c j :
  Float.shortest_digits 17 (Z.pos m) e
    (Float.decimal_point 640 (Z.pos m) e (-324)) 1 = (c, j) →
  0 ≤ c ∧ (c = 0 → j ≤ -325).
Proof.
  intros Hd. apply shortest_digits_spec in Hd as (n & Hn & Hj & Hc).
  pose proof (floor_nonneg (Z.pos m) e (- j) ltac:(lia)) as Hfloor.
  split; [lia|]. intros Hzero.
  destruct (decimal_point_spec 640 (Z.pos m) e (-324)) as [Hk [Heq|Hprev]]; [lia|].
  pose proof (floor_pos (Z.pos m) e _ j ltac:(lia) Hprev ltac:(lia)). lia.
Qed.

Lemma strip_zeros_spec fuel c j c' j' :
  Float.strip_zeros fuel c j = (c', j') → 0 ≤ c →
  (1 ≤ c → 1 ≤ c') ∧ (c = 0 → c' = 0 ∧ j' ≤ j + Z.of_nat fuel).
Proof.
  revert c j. induction fuel as [|fuel IH]; intros c j; simpl.
  - intros [= <- <-] _. split; [done|]. intros ->. split; lia.
  - destruct (c mod 10 =? 0) eqn:Hmod.
    + apply Z.eqb_eq in Hmod. intros Hrec Hc.
      destruct (IH _ _ Hrec) as [Hpos Hzero]; [apply Z.div_pos; lia|].
      split.
      * intros Hc1. apply Hpos. apply Z.div_le_lower_bound; [lia|].
        destruct (decide (c < 10)); [|lia].
        rewrite Z.mod_small in Hmod by lia. lia.
      * intros ->. destruct Hzero as [-> Hj]; [done|]. split; lia.
    + apply Z.eqb_neq in Hmod. intros [= <- <-] Hc. split; [done|].
      intros ->. done.
Qed.


(** *** The texts of numbers *)

(** The renderings of the numbers that are zero and of the empty list
    are these four texts. *)
Definition falsy_text (t : string) : Prop :=
  t = "0" ∨ t = "0.0" ∨ t = "-0.0" ∨ t = "[]".

Lemma nonzero_head_text d (s : string) : nonzero_digit d → ¬ falsy_text (String d s).
Proof.
  unfold nonzero_digit.
  intros Hd [Ht|[Ht|[Ht|Ht]]]; injection Ht as -> _; simpl in Hd; lia.
Qed.

Lemma minus_head_text (s : string) : ¬ falsy_text s → s ≠ "0.0" → ¬ falsy_text ("-" +:+ s).
Proof.
  intros _ Hs [Ht|[Ht|[Ht|Ht]]]; try discriminate Ht.
  injection Ht as Ht. done.
Qed.

Lemma zeros_digits_text k d (s : string) :
  nonzero_digit d → Float.zeros k +:+ String d s ≠ "0".
Proof.
  unfold nonzero_digit. intros Hd.
  destruct k as [|[|k]]; simpl.
  - intros [= -> _]. simpl in Hd. lia.
  - discriminate.
  - discriminate.
Qed.

Lemma layout_text c j :
  1 ≤ c ∨ (c = 0 ∧ j ≤ -308) →
  ¬ falsy_text (Float.layout (pretty c) (j + Z.of_nat (String.length (pretty c)))).
Proof.
  intros [Hc|[-> Hj]].
  - destruct c as [|p|p]; [lia| |lia].
    destruct (pretty_pos_head p) as (d & ds & -> & Hd).
    set (decpt := j + Z.of_nat (String.length (String d ds))).
    unfold Float.layout.
    destruct ((decpt <=? -4) || (16 <? decpt))%bool.
    { apply (nonzero_head_text d); done. }
    destruct (decpt <=? 0) eqn:Hdec.
    { intros [Ht|[Ht|[Ht|Ht]]]; try discriminate Ht.
      injection Ht as Ht. by apply zeros_digits_text in Ht. }
    destruct (Z.of_nat (String.length (String d ds)) <=? decpt).
    { apply (nonzero_head_text d); done. }
    apply Z.leb_gt in Hdec.
    destruct (Z.to_nat decpt) as [|n] eqn:Hn; [lia|].
    apply (nonzero_head_text d); done.
  - change (pretty 0) with "0". simpl String.length.
    unfold Float.layout.
    replace ((j + Z.of_nat 1 <=? -4) || (16 <? j + Z.of_nat 1))%bool with true
      by (symmetry; apply orb_true_iff; left; apply Z.leb_le; lia).
    intros [Ht|[Ht|[Ht|Ht]]]; discriminate Ht.
Qed.

Lemma layout_text_not_zero c j :
  1 ≤ c ∨ (c = 0 ∧ j ≤ -308) →
  Float.layout (pretty c) (j + Z.of_nat (String.length (pretty c))) ≠ "0.0".
Proof. intros Hc Ht. apply (layout_text c j Hc). right. by left. Qed.

(** The rendering of a float is one of the texts of zero exactly when
    the float is a zero. *)
Lemma float_repr_text (f : Float.float) :
  falsy_text (Float.repr f) ↔ ∃ s, f = S754_zero s.
Proof.
  split.
  - destruct f as [s|s| |s m e]; [by eexists| | |].
    + intros [Ht|[Ht|[Ht|Ht]]]; destruct s; discriminate Ht.
    + intros [Ht|[Ht|[Ht|Ht]]]; discriminate Ht.
    + intros Ht. exfalso. revert Ht. unfold Float.repr.
      destruct (Float.shortest_digits _ _ _ _ _) as [c j] eqn:Hd.
      destruct (Float.strip_zeros 17 c j) as [c' j'] eqn:Hs.
      apply digits_of_finite in Hd as [Hc Hj].
      apply strip_zeros_spec in Hs as [Hpos Hzero]; [|done].
      assert (1 ≤ c' ∨ (c' = 0 ∧ j' ≤ -308)) as Hdigits.
      { destruct (decide (c = 0)) as [->|Hne].
        - right. destruct Hzero as [-> Hj']; [done|]. split; [done|].
          specialize (Hj eq_refl). lia.
        - left. apply Hpos. lia. }
      destruct s.
      * apply minus_head_text; [by apply layout_text|by apply layout_text_not_zero].
      * by apply layout_text.
  - intros [[] ->]; unfold falsy_text; simpl; auto.
Qed.

(** The rendering of an int is one of the texts of zero exactly when
    the int is [0]. *)
Lemma int_repr_text (n : Z) : falsy_text (pretty n) ↔ n = 0.
Proof.
  split; [|intros ->; by left].
  destruct n as [|p|p]; [done| |]; intros Ht; exfalso; revert Ht.
  - destruct (pretty_pos_head p) as (d & ds & -> & Hd). by apply nonzero_head_text.
  - change (pretty (Z.neg p)) with ("-" +:+ pretty (Z.pos p)).
    destruct (pretty_pos_head p) as (d & ds & -> & Hd).
    apply minus_head_text; [by apply nonzero_head_text|].
    intros [= -> _]. unfold nonzero_digit in Hd. simpl in Hd. lia.
Qed.


(** *** The renderings of the values of the scenarios *)

Lemma value_repr_text (a : pyvalue) : falsy_text (Value.repr a) ↔ Value.truth a = false.
Proof.
  destruct a as [n|f|]; simpl.
  - rewrite int_repr_text, negb_false_iff. symmetry. apply Z.eqb_eq.
  - rewrite float_repr_text. destruct f; split; try done; [by eexists|by intros [? ?]..].
  - split; [done|]. intros _. by do 3 right.
Qed.

Lemma value_repr_list (a : pyvalue) : Value.repr a = "[]" ↔ a = VEmptyList.
Proof.
  split; [|by intros ->].
  destruct a as [n|f|]; simpl; [| |done]; intros Ht; exfalso.
  - assert (n = 0) as -> by (apply int_repr_text; by do 3 right). discriminate Ht.
  - assert (∃ s, f = S754_zero s) as [[] ->]
      by (apply float_repr_text; by do 3 right); discriminate Ht.
Qed.

(** Values of the scenarios with one rendering have one truth value. *)
Lemma value_repr_truth (a b : pyvalue) :
  Value.repr a = Value.repr b → Value.truth a = Value.truth b.
Proof.
  intros Hab.
  pose proof (value_repr_text a) as Ha. pose proof (value_repr_text b) as Hb.
  rewrite Hab in Ha.
  destruct (Value.truth a), (Value.truth b); try done.
  - exact (proj1 Ha (proj2 Hb eq_refl)).
  - symmetry. exact (proj1 Hb (proj2 Ha eq_refl)).
Qed.

(** Values of the scenarios with one rendering hold the same names. *)
Lemma value_repr_names (a b : pyvalue) :
  Value.repr a = Value.repr b → Value.names a = Value.names b.
Proof.
  intros Hab.
  pose proof (value_repr_list a) as Ha. pose proof (value_repr_list b) as Hb.
  rewrite Hab in Ha.
  destruct a as [m|f|], b as [n|g|]; try done.
  - discriminate (proj1 Ha (proj2 Hb eq_refl)).
  - discriminate (proj1 Ha (proj2 Hb eq_refl)).
  - discriminate (proj1 Hb (proj2 Ha eq_refl)).
  - discriminate (proj1 Hb (proj2 Ha eq_refl)).
Qed.

End ReprFacts.

Global Instance pyvalue_object : PyObject pyvalue := {|
  py_is := pyvalue_eq_dec;
  py_eq := Value.eq;
  py_truth := Value.truth;
  py_names := Value.names;
  py_repr := Value.repr;
  py_empty_list := VEmptyList;
  py_empty_list_eq := eq_refl;
  py_repr_truth := ReprFacts.value_repr_truth;
  py_repr_names := ReprFacts.value_repr_names
|}.

(** Values at addresses: the objects of a scenario in which two objects
    with the same content are to be told apart. *)
Record located := Located {
  address : N;
  content : pyvalue
}.

Global Instance located_eq_dec : EqDecision located.
Proof. solve_decision. Defined.

Global Instance located_object : PyObject located := {|
  py_is := located_eq_dec;
  py_eq a b := Value.eq (content a) (content b);
  py_truth a := Value.truth (content a);
  py_names a := Value.names (content a);
  py_repr a := Value.repr (content a);
  py_empty_list := Located 0 VEmptyList;
  py_empty_list_eq := eq_refl;
  py_repr_truth a b := ReprFacts.value_repr_truth (content a) (content b);
  py_repr_names a b := ReprFacts.value_repr_names (content a) (content b)
|}.

(** Lists of names: the values of the scenarios in which a parameter
    holds the names that the guard accepts.  The universe has two
    objects, the lists [[]] and [['x']]. *)
Inductive namelist :=
  | NoName
  | OnlyX.

Global Instance namelist_eq_dec : EqDecision namelist.
Proof. solve_decision. Defined.

Module NameList.

Definition held (a : namelist) : list string :=
  match a with
  | NoName => []
  | OnlyX => ["x"]
  end.

(** [a == b] on lists of [str]: the same names in the same order. *)
Definition eq (a b : namelist) : bool := bool_decide (held a = held b).

Definition truth (a : namelist) : bool := negb (bool_decide (held a = [])).

Definition names (a : namelist) : result (list string) := Ok (held a).

Definition repr (a : namelist) : string := str_of_str_list (held a).

Lemma repr_inj (a b : namelist) : repr a = repr b → a = b.
Proof. by destruct a, b. Qed.

End NameList.

Global Instance namelist_object : PyObject namelist := {|
  py_is := namelist_eq_dec;
  py_eq := NameList.eq;
  py_truth := NameList.truth;
  py_names := NameList.names;
  py_repr := NameList.repr;
  py_empty_list := NoName;
  py_empty_list_eq := eq_refl;
  py_repr_truth a b Hab := f_equal NameList.truth (NameList.repr_inj a b Hab);
  py_repr_names a b Hab := f_equal NameList.names (NameList.repr_inj a b Hab)
|}.

(** ** Classes, instances and the class-level store *)

Section Classes.
Context {value : Type}.

(** The body of a class statement: its identity, its [__name__] and the
    class variables it assigns ([None] when the body does not assign
    the variable). *)
Record class_body := ClassBody {
  cls_id : N;
  __name__ : string;
  depname : option string;
  name : option string;
  required_parameters : option (list string);
  default_parameters : option (gmap string value);
  required_conditions : option (list string)
}.

(** A class of the hierarchy: [Dependence] itself or a class statement
    with one base. *)
Inductive pyclass :=
  | DependenceClass
  | Subclass (base : pyclass) (body : class_body).

Definition class_name (c : pyclass) : string :=
  match c with
  | DependenceClass => "Dependence"
  | Subclass _ body => __name__ body
  end.

(** The identities of a class and of its bases, the class first.  A
    class object is identified by this list: distinct class statements
    have distinct identities. *)
Fixpoint mro_ids (c : pyclass) : list N :=
  match c with
  | DependenceClass => []
  | Subclass base body => cls_id body :: mro_ids base
  end.

(** [c1 is c2], which for classes is also [c1 == c2] *)
Definition same_class (c1 c2 : pyclass) : bool :=
  bool_decide (mro_ids c1 = mro_ids c2).

Fixpoint issubclass (c d : pyclass) : bool :=
  same_class c d ||
  match c with
  | DependenceClass => false
  | Subclass base _ => issubclass base d
  end.

(** Lookup of a class variable along the bases. *)
Fixpoint class_getattr {A} (var : class_body → option A) (c : pyclass) : option A :=
  match c with
  | DependenceClass => None
  | Subclass base body =>
      match var body with
      | Some a => Some a
      | None => class_getattr var base
      end
  end.

Definition class_hasattr {A} (var : class_body → option A) (c : pyclass) : bool :=
  bool_decide (is_Some (class_getattr var c)).

(** The class-level [default_parameters] dict an instance sees: the
    identity of the class whose body assigns it, and its content as
    declared. *)
Definition default_parameters_ref (c : pyclass) : option (N * gmap string value) :=
  class_getattr (λ body, (λ d, (cls_id body, d)) <$> default_parameters body) c.

(** The current contents of the class-level [default_parameters] dicts
    that have been written to, by the identity of the declaring class. *)
Definition class_dicts : Type := gmap N (gmap string value).

Definition current_defaults (cd : class_dicts) (id : N) (dflt : gmap string value)
  : gmap string value :=
  default dflt (cd !! id).

Record instance := Instance {
  type : pyclass;
  __dict__ : gmap string value
}.

Definition isinstance (o : instance) (c : pyclass) : bool := issubclass (type o) c.

End Classes.
Arguments class_body : clear implicits.
Arguments pyclass : clear implicits.
Arguments class_dicts : clear implicits.
Arguments instance : clear implicits.

(** ** base.py: class Dependence *)

Module Dependence.
Section Dependence.
Context {value : Type} `{PyObject value}.

(** [hash] on [str] (salted per process, hence a parameter). *)
Variable str_hash : string → Z.

(** The state of a method call: the class-level dicts and [self]. *)
Definition world : Type := class_dicts value * instance value.

Definition on_self {A} (m : M (instance value) A) : M world A :=
  λ w, let '(self', r) := m (snd w) in ((fst w, self'), r).

(** [hasattr(self, attr)]: an instance attribute, or a class variable
    [var] of the class or of one of its bases. *)
Definition hasattr {A} (attr : string) (var : class_body value → option A)
  : M world bool :=
  λ w, (w, Ok (bool_decide (is_Some (__dict__ (snd w) !! attr))
               || class_hasattr var (type (snd w)))).

(** An attribute read through the instance, [self.attr]: the instance
    attribute of that name when [self] has one, and otherwise the class
    variable [var] of the class or of one of its bases. *)
Inductive attribute (A : Type) :=
  | InstanceAttribute (v : value)
  | ClassVariable (a : A).
Arguments InstanceAttribute {A} v.
Arguments ClassVariable {A} a.

Definition self_getattr {A} (attr : string) (var : class_body value → option A)
    (self : instance value) : result (attribute A) :=
  match __dict__ self !! attr with
  | Some v => Ok (InstanceAttribute v)
  | None =>
      match class_getattr var (type self) with
      | Some a => Ok (ClassVariable a)
      | None => Raise (AttributeError attr)
      end
  end.

(** [self.required_parameters], read as a list of names: the class
    variable, unless a parameter of that name has been bound on the
    instance, whose value then stands in its place. *)
Definition self_required_parameters (self : instance value) : result (list string) :=
  try rp <- self_getattr "required_parameters" required_parameters self ;;
  match rp with
  | InstanceAttribute v => py_names v
  | ClassVariable req => Ok req
  end.

(** [bool(self.name)] *)
Definition self_name_truth (self : instance value) : result bool :=
  try nm <- self_getattr "name" name self ;;
  Ok (match nm with
      | InstanceAttribute v => py_truth v
      | ClassVariable s => bool_decide (s ≠ "")
      end).

(** [object.__setattr__(self, name, val)].  Three names are slots of
    every object and not entries of its [__dict__]: [__class__] takes
    only a class and [__dict__] only a dict, which no value is, and
    [__weakref__] cannot be written. *)
Definition object__setattr__ (name : string) (val : value) : M (instance value) unit :=
  if bool_decide (name = "__class__" ∨ name = "__dict__") then raise TypeError
  else if bool_decide (name = "__weakref__") then raise (AttributeError "__weakref__")
  else
    self <- get ;;
    put (Instance (type self) (<[name := val]> (__dict__ self))).

Definition __setattr__ (name : string) (val : value) : M (instance value) unit :=
  req <- read self_required_parameters ;;
  if bool_decide (name ∈ req) then object__setattr__ name val
  else raise LookupError.

Definition __delattr__ (name : string) : M (instance value) unit :=
  raise LookupError.

(** [for key, value in items: setattr(self, key, value)] *)
Fixpoint setattr_each (items : list (string * value)) : M (instance value) unit :=
  match items with
  | [] => ret tt
  | (key, val) :: items' => __setattr__ key val ;; setattr_each items'
  end.

(** The keys of a dict, as [sorted] sees them. *)
Definition keys (d : gmap string value) : list string := (map_to_list d).*1.

(** The message of the assertion on the argument names. *)
Definition mismatch_message (passed_args expected_args : list string) : string :=
  "Provided " +:+ str_of_str_list passed_args +:+ " arguments, expected "
    +:+ str_of_str_list expected_args.

(** [args = self.default_parameters; args.update(kwargs)]: [args] is
    the class-level dict itself, so the update is written to it.  An
    instance attribute of that name is no dict and has no [update]. *)
Definition merge_arguments (kwargs : gmap string value) : M world (gmap string value) :=
  w <- get ;;
  match __dict__ (snd w) !! "default_parameters" with
  | Some _ => raise (AttributeError "update")
  | None =>
      match default_parameters_ref (type (snd w)) with
      | Some (id, dflt) =>
          let args := kwargs ∪ current_defaults (fst w) id dflt in
          put (<[id := args]> (fst w), snd w) ;;
          ret args
      | None => ret kwargs
      end
  end.

Definition __init__ (kwargs : gmap string value) : M world unit :=
  has_depname <- hasattr "depname" depname ;;
  assert has_depname "Dependence needs a parameter name" ;;
  has_name <- hasattr "name" name ;;
  assert has_name "Dependence classes need a name" ;;
  has_required <- hasattr "required_parameters" required_parameters ;;
  assert has_required "Dependence needs a list of required params" ;;
  args <- merge_arguments kwargs ;;
  has_conditions <- hasattr "required_conditions" required_conditions ;;
  (if has_conditions then ret tt
   else on_self (object__setattr__ "required_conditions" py_empty_list)) ;;
  let passed_args := sorted (keys args) in
  req <- on_self (read self_required_parameters) ;;
  let expected_args := sorted req in
  assert (bool_decide (passed_args = expected_args))
    (mismatch_message passed_args expected_args) ;;
  on_self (setattr_each (map_to_list args)).

(** Calling the class with keyword arguments [kwargs]: a fresh object
    is initialised by [__init__]; the state is the class-level store. *)
Definition new (cls : pyclass value) (kwargs : gmap string value)
  : M (class_dicts value) (instance value) :=
  λ cd,
    match __init__ kwargs (cd, Instance cls ∅) with
    | ((cd', self), Ok _) => (cd', Ok self)
    | ((cd', _), Raise e) => (cd', Raise e)
    end.

(** [d1 == d2] on dicts: the same size, and every key of [d1] is bound
    in [d2] to the same object or to a value that compares equal (the
    interpreter tests [v is w] before it asks [v == w]). *)
Definition dict_eq (d1 d2 : gmap string value) : bool :=
  (size d1 =? size d2)%nat &&
  forallb (λ kv, match d2 !! kv.1 with
                 | Some w => bool_decide (kv.2 = w) || py_eq kv.2 w
                 | None => false
                 end) (map_to_list d1).

Definition __eq__ (self other : instance value) : bool :=
  if isinstance other (type self) then dict_eq (__dict__ self) (__dict__ other)
  else false.

(** The comparison [a == b] of two instances.  When the class of [b] is
    a proper subclass of the class of [a], the interpreter asks
    [b.__eq__(a)] first, and otherwise [a.__eq__(b)]; [__eq__] never
    returns [NotImplemented], so the first answer is the result. *)
Definition eq_op (a b : instance value) : bool :=
  if negb (same_class (type a) (type b)) && issubclass (type b) (type a)
  then __eq__ b a
  else __eq__ a b.

(** [getattr(self, p)] for a parameter name. *)
Definition getattr (self : instance value) (p : string) : result value :=
  match __dict__ self !! p with
  | Some v => Ok v
  | None => Raise (AttributeError p)
  end.

(** [l[-1]] *)
Definition last_item (l : list string) : result string :=
  match last l with
  | Some x => Ok x
  | None => Raise IndexError
  end.

(** The loop of [__repr__] over the names [ps] still to visit; [req] is
    [self.required_parameters]. *)
Fixpoint repr_loop (self : instance value) (req : list string) (ps : list string)
    (params : string) : result string :=
  match ps with
  | [] => Ok params
  | p :: ps' =>
      try v <- getattr self p ;;
      let params := params +:+ (p +:+ "=" +:+ py_repr v) in
      try last_p <- last_item req ;;
      let params := if bool_decide (p ≠ last_p) then params +:+ ", " else params in
      repr_loop self req ps' params
  end.

Definition __repr__ (self : instance value) : result string :=
  try named <- self_name_truth self ;;
  try params <-
    (if named then
       try req <- self_required_parameters self ;;
       repr_loop self req req ""
     else Ok "") ;;
  Ok (class_name (type self) +:+ "(" +:+ params +:+ ")").


Definition __hash__ (self : instance value) : result Z :=
  try s <- __repr__ self ;; Ok (str_hash s).

(** *** Notions used to state the properties *)

(** The class is a well-formed variant declaration with the required
    parameter names [req]. *)
Definition declared (cls : pyclass value) (req : list string) : Prop :=
  is_Some (class_getattr depname cls) ∧ is_Some (class_getattr name cls) ∧
  class_getattr required_parameters cls = Some req.

(** The merged arguments of a construction: the class-level defaults as
    they stand, overlaid by the keyword arguments. *)
Definition merged_arguments (cd : class_dicts value) (cls : pyclass value)
    (kwargs : gmap string value) : gmap string value :=
  match default_parameters_ref cls with
  | Some (id, dflt) => kwargs ∪ current_defaults cd id dflt
  | None => kwargs
  end.

(** The class-level store a construction leaves behind. *)
Definition class_dicts_after (cd : class_dicts value) (cls : pyclass value)
    (kwargs : gmap string value) : class_dicts value :=
  match default_parameters_ref cls with
  | Some (id, _) => <[id := merged_arguments cd cls kwargs]> cd
  | None => cd
  end.

(** The attributes [__init__] binds without the guard. *)
Definition unguarded_attributes (cls : pyclass value) : gmap string value :=
  if class_hasattr required_conditions cls then ∅
  else {["required_conditions" := py_empty_list]}.

(** The names that [object.__setattr__] does not store. *)
Definition slot_names : list string := ["__class__"; "__dict__"; "__weakref__"].

(** The required names [req] are ordinary: none of them is
    [required_parameters], which the guard reads through the instance,
    and none is a slot. *)
Definition ordinary (req : list string) : Prop :=
  Forall (λ n, n ∉ req) ("required_parameters" :: slot_names).

(** What the loop of [__init__] leaves of the merged arguments [args]:
    the instance with its parameters bound, or the exception that
    stopped the loop. *)
Definition bind_parameters (cls : pyclass value) (args : gmap string value)
  : result (instance value) :=
  match setattr_each (map_to_list args) (Instance cls (unguarded_attributes cls)) with
  | (self, Ok _) => Ok self
  | (_, Raise e) => Raise e
  end.

(** An attempt to change an instance from outside. *)
Inductive attempt :=
  | SetAttr (name : string) (val : value)
  | DelAttr (name : string).

Definition perform (a : attempt) : M (instance value) unit :=
  match a with
  | SetAttr name val => __setattr__ name val
  | DelAttr name => __delattr__ name
  end.

(** The instance after a sequence of attempts, each of which may have
    raised. *)
Definition after_attempts (l : list attempt) (self : instance value) : instance value :=
  foldl (λ o a, (perform a o).1) self l.


(** The message of the first of the three declarations that the class
    misses, in the order in which [__init__] asserts them. *)
Definition declaration_error (cls : pyclass value) : option string :=
  if negb (class_hasattr depname cls) then
    Some "Dependence needs a parameter name"
  else if negb (class_hasattr name cls) then
    Some "Dependence classes need a name"
  else if negb (class_hasattr required_parameters cls) then
    Some "Dependence needs a list of required params"
  else None.

(** The class-level store after constructing from [cls] with each of
    the keyword mappings of [l] in turn, whatever the outcomes. *)
Definition store_after_constructions (cls : pyclass value)
    (l : list (gmap string value)) (cd : class_dicts value) : class_dicts value :=
  foldl (λ c kwargs, (new cls kwargs c).1) cd l.

(** The value that the last assignment of [l] which the guard lets
    through gives to the name [p], if there is one. *)
Fixpoint last_assigned (req : list string) (p : string) (l : list attempt)
  : option value :=
  match l with
  | [] => None
  | a :: l' =>
      match last_assigned req p l' with
      | Some v => Some v
      | None =>
          match a with
          | SetAttr n v => if bool_decide (n = p ∧ n ∈ req) then Some v else None
          | DelAttr _ => None
          end
      end
  end.

End Dependence.
End Dependence.

(** ** bound.py *)

Module Bound.

Definition body : class_body pyvalue :=
  ClassBody 1 "Bound" (Some "Bound") None None None None.
Definition cls : pyclass pyvalue := Subclass DependenceClass body.

Definition get_bound (self : instance pyvalue) (t : pyvalue)
    (conditions : gmap string pyvalue) : result pyvalue :=
  Raise NotImplementedError.

Definition B_base (self : instance pyvalue) (conditions : gmap string pyvalue)
  : result pyvalue :=
  try req <- Dependence.self_required_parameters self ;;
  if bool_decide ("B" ∈ req) then Dependence.getattr self "B"
  else Raise (AssertionError "B must be a required parameter").

End Bound.

Module BoundConstant.

Definition body : class_body pyvalue :=
  ClassBody 2 "BoundConstant" None (Some "constant") (Some ["B"]) None None.
Definition cls : pyclass pyvalue := Subclass Bound.cls body.

Definition get_bound (self : instance pyvalue) (t : pyvalue)
    (conditions : gmap string pyvalue) : result pyvalue :=
  Dependence.getattr self "B".

End BoundConstant.

Module BoundCollapsingLinear.

Definition body : class_body pyvalue :=
  ClassBody 3 "BoundCollapsingLinear" None (Some "collapsing_linear")
    (Some ["B"; "t"]) None None.
Definition cls : pyclass pyvalue := Subclass Bound.cls body.

(** [max(self.B - self.t*t, 0.)] *)
Definition get_bound (self : instance pyvalue) (t : pyvalue)
    (conditions : gmap string pyvalue) : result pyvalue :=
  try B <- Dependence.getattr self "B" ;;
  try slope <- Dependence.getattr self "t" ;;
  try drop <- Value.mul slope t ;;
  try level <- Value.sub B drop ;;
  Value.max level (VFloat Float.zero).

(** The formula of the specification, [max(B - slope * t_query, 0)], on
    the values themselves. *)
Definition formula (B slope t_query : pyvalue) : result pyvalue :=
  try drop <- Value.mul slope t_query ;;
  try level <- Value.sub B drop ;;
  Value.max level (VFloat Float.zero).

End BoundCollapsingLinear.

Module BoundCollapsingExponential.
Section Exp.

(** [numpy.exp] on a scalar. *)
Variable np_exp : pyvalue → result pyvalue.

Definition body : class_body pyvalue :=
  ClassBody 4 "BoundCollapsingExponential" None (Some "collapsing_exponential")
    (Some ["B"; "tau"]) None None.
Definition cls : pyclass pyvalue := Subclass Bound.cls body.

(** [self.B * np.exp(-self.tau*t)] *)
Definition get_bound (self : instance pyvalue) (t : pyvalue)
    (conditions : gmap string pyvalue) : result pyvalue :=
  try B <- Dependence.getattr self "B" ;;
  try tau <- Dependence.getattr self "tau" ;;
  try minus_tau <- Value.neg tau ;;
  try x <- Value.mul minus_tau t ;;
  try decay <- np_exp x ;;
  Value.mul B decay.

(** The formula of the specification, [B * exp(-tau * t_query)], on the
    values themselves. *)
Definition formula (B tau t_query : pyvalue) : result pyvalue :=
  try minus_tau <- Value.neg tau ;;
  try x <- Value.mul minus_tau t_query ;;
  try decay <- np_exp x ;;
  Value.mul B decay.


End Exp.
End BoundCollapsingExponential.

(** ** The scenarios of the specification *)

Module Scenario.

(** The class-level store before any construction. *)
Definition fresh : class_dicts pyvalue := ∅.

(** [B=1.0] *)
Definition B_one : gmap string pyvalue := {["B" := VFloat Float.one]}.

(** [B=1] *)
Definition B_int_one : gmap string pyvalue := {["B" := VInt 1]}.

(** [B=1.0, extra=2.0] *)
Definition B_one_extra : gmap string pyvalue :=
  <["extra" := VFloat Float.two]> B_one.

(** [B=1.0, t=0.1]: the slope of the linear collapse is the parameter
    named [t]. *)
Definition B_one_slope_tenth : gmap string pyvalue :=
  <["t" := VFloat Float.tenth]> B_one.

(** [BoundConstant(B=1.0)], as the instance [__init__] leaves behind. *)
Definition constant_one : instance pyvalue :=
  Instance BoundConstant.cls (<["required_conditions" := VEmptyList]> B_one).


(** [BoundCollapsingLinear(B=1.0, t=0.1)] *)
Definition linear_one_tenth : instance pyvalue :=
  Instance BoundCollapsingLinear.cls
    (<["required_conditions" := VEmptyList]> B_one_slope_tenth).



(** A variant that declares a default:
    [class BoundDefaulted(Bound): name = "defaulted";
     required_parameters = ["B"]; default_parameters = {"B": 1.0}]. *)
Definition defaulted_body : class_body pyvalue :=
  ClassBody 5 "BoundDefaulted" None (Some "defaulted") (Some ["B"]) (Some B_one) None.
Definition defaulted_cls : pyclass pyvalue := Subclass Bound.cls defaulted_body.

(** [B=2.0] *)
Definition B_two : gmap string pyvalue := {["B" := VFloat Float.two]}.

(** A class statement with the variant [BoundConstant] as its base:
    [class BoundConstantChild(BoundConstant): pass]. *)
Definition child_body : class_body pyvalue :=
  ClassBody 6 "BoundConstantChild" None None None None None.
Definition child_cls : pyclass pyvalue := Subclass BoundConstant.cls child_body.

(** [BoundConstantChild(B=1.0)] *)
Definition child_one : instance pyvalue :=
  Instance child_cls (<["required_conditions" := VEmptyList]> B_one).

(** A variant whose [name] is the empty string:
    [class BoundUnnamed(Bound): name = ""; required_parameters = ["B"]]. *)
Definition unnamed_body : class_body pyvalue :=
  ClassBody 7 "BoundUnnamed" None (Some EmptyString) (Some ["B"]) None None.
Definition unnamed_cls : pyclass pyvalue := Subclass Bound.cls unnamed_body.

(** [BoundUnnamed(B=1.0)] *)
Definition unnamed_one : instance pyvalue :=
  Instance unnamed_cls (<["required_conditions" := VEmptyList]> B_one).

(** [B=1, t=2]: an int bound with an int slope. *)
Definition B_int_one_slope_two : gmap string pyvalue :=
  <["t" := VInt 2]> B_int_one.

(** [BoundCollapsingLinear(B=1, t=2)] *)
Definition linear_ints : instance pyvalue :=
  Instance BoundCollapsingLinear.cls
    (<["required_conditions" := VEmptyList]> B_int_one_slope_two).

(** A call without keyword arguments. *)
Definition no_arguments : gmap string pyvalue := ∅.


(** [B=nan], the one object [math.nan], and [BoundConstant(B=nan)] *)
Definition B_nan : gmap string pyvalue := {["B" := VFloat S754_nan]}.
Definition constant_nan : instance pyvalue :=
  Instance BoundConstant.cls (<["required_conditions" := VEmptyList]> B_nan).

(** A variant with a parameter that is named like the class variable
    the guard reads:
    [class BoundShadow(Bound): name = "shadow";
     required_parameters = ["required_parameters"]]. *)
Definition shadow_body : class_body pyvalue :=
  ClassBody 8 "BoundShadow" None (Some "shadow") (Some ["required_parameters"]) None None.
Definition shadow_cls : pyclass pyvalue := Subclass Bound.cls shadow_body.


(** [BoundShadow(required_parameters=[])] *)
Definition names_none : gmap string pyvalue := {["required_parameters" := VEmptyList]}.
Definition shadow_none : instance pyvalue :=
  Instance shadow_cls (<["required_conditions" := VEmptyList]> names_none).

(** A variant with a parameter named [name]:
    [class BoundNamed(Bound): name = "named"; required_parameters = ["B", "name"]]. *)
Definition named_body : class_body pyvalue :=
  ClassBody 9 "BoundNamed" None (Some "named") (Some ["B"; "name"]) None None.
Definition named_cls : pyclass pyvalue := Subclass Bound.cls named_body.

(** [BoundNamed(B=1.0, name=0)] *)
Definition B_one_name_zero : gmap string pyvalue := <["name" := VInt 0]> B_one.
Definition named_zero : instance pyvalue :=
  Instance named_cls (<["required_conditions" := VEmptyList]> B_one_name_zero).

(** A variant with the empty [name] and a parameter named [name]:
    [class BoundUN(Bound): name = ""; required_parameters = ["name"]],
    and [BoundUN(name=5)]. *)
Definition un_body : class_body pyvalue :=
  ClassBody 10 "BoundUN" None (Some EmptyString) (Some ["name"]) None None.
Definition un_cls : pyclass pyvalue := Subclass Bound.cls un_body.
Definition name_five : gmap string pyvalue := {["name" := VInt 5]}.
Definition un_five : instance pyvalue :=
  Instance un_cls (<["required_conditions" := VEmptyList]> name_five).

(** The class statements of [Bound] and [BoundConstant] over another
    universe of values. *)
Definition bound_class {value} : pyclass value :=
  Subclass DependenceClass (ClassBody 1 "Bound" (Some "Bound") None None None None).
Definition constant_class {value} : pyclass value :=
  Subclass bound_class
    (ClassBody 2 "BoundConstant" None (Some "constant") (Some ["B"]) None None).

(** [BoundConstant(B=n)] for a NaN object [n] at the address [a] *)
Definition constant_nan_at (a : N) : instance located :=
  Instance constant_class
    (<["required_conditions" := Located 0 VEmptyList]>
       {["B" := Located a (VFloat S754_nan)]}).


End Scenario.

(** * Properties *)

(** ** The order on names and [sorted] *)

Module SortedFacts.

(** Two lists of names sort to the same list exactly when they are
    permutations of each other. *)
Lemma sorted_eq_iff (l1 l2 : list string) : sorted l1 = sorted l2 ↔ l1 ≡ₚ l2.
Proof.
  unfold sorted. split.
  - intros Heq.
    rewrite <- (merge_sort_Permutation String.le l1), Heq.
    apply merge_sort_Permutation.
  - intros Hperm. apply (Sorted_unique String.le).
    + apply Sorted_merge_sort, _.
    + apply Sorted_merge_sort, _.
    + by rewrite !merge_sort_Permutation.
Qed.

End SortedFacts.

(** ** Construction *)

Module DependenceFacts.
Import Dependence SortedFacts.
Section Facts.
Context {value : Type} `{PyObject value}.
Implicit Types (cls : pyclass value) (cd : class_dicts value).
Implicit Types (kwargs args d : gmap string value) (self other : instance value).

Lemma keys_elem_of d k : k ∈ keys d ↔ is_Some (d !! k).
Proof.
  unfold keys. rewrite list_elem_of_fmap. split.
  - intros [[k' v] [-> Hin]]. apply elem_of_map_to_list in Hin. eauto.
  - intros [v Hv]. exists (k, v). split; [done|]. by apply elem_of_map_to_list.
Qed.

Lemma keys_NoDup d : NoDup (keys d).
Proof. apply NoDup_fst_map_to_list. Qed.

Lemma keys_dom d : list_to_set (keys d) = dom d.
Proof.
  apply set_eq. intros k.
  by rewrite elem_of_list_to_set, keys_elem_of, elem_of_dom.
Qed.

(** A permutation of the keys is a list without duplicates that holds
    exactly the bound names. *)
Lemma keys_permutation d (req : list string) :
  keys d ≡ₚ req ↔ NoDup req ∧ ∀ k, k ∈ req ↔ is_Some (d !! k).
Proof.
  split.
  - intros Hp. split; [rewrite <- Hp; apply keys_NoDup|].
    intros k. by rewrite <- Hp, keys_elem_of.
  - intros [Hnd Hin]. apply NoDup_Permutation; [apply keys_NoDup|done|].
    intros k. by rewrite keys_elem_of, Hin.
Qed.

Lemma class_hasattr_true {A} (var : class_body value → option A) cls :
  class_hasattr var cls = true ↔ is_Some (class_getattr var cls).
Proof. unfold class_hasattr. apply bool_decide_eq_true. Qed.

(** *** Attributes read through the instance *)

(** Without an instance attribute of that name,
    [self.required_parameters] is the class variable. *)
Lemma self_required_parameters_class self req :
  __dict__ self !! "required_parameters" = None →
  class_getattr required_parameters (type self) = Some req →
  self_required_parameters self = Ok req.
Proof.
  intros Hd Hc. unfold self_required_parameters, self_getattr. by rewrite Hd, Hc.
Qed.

Lemma self_name_truth_class self nm :
  __dict__ self !! "name" = None →
  class_getattr name (type self) = Some nm →
  self_name_truth self = Ok (bool_decide (nm ≠ "")).
Proof.
  intros Hd Hc. unfold self_name_truth, self_getattr. by rewrite Hd, Hc.
Qed.

(** *** The guard *)

Lemma not_slot_name (n : string) :
  n ∉ slot_names ↔ n ≠ "__class__" ∧ n ≠ "__dict__" ∧ n ≠ "__weakref__".
Proof.
  unfold slot_names. rewrite !not_elem_of_cons. split.
  - by intros (? & ? & ? & _).
  - intros (? & ? & ?). split_and!; [done..|]. apply not_elem_of_nil.
Qed.

Lemma object_setattr_plain n (v : value) self :
  n ∉ slot_names →
  object__setattr__ n v self
    = (Instance (type self) (<[n := v]> (__dict__ self)), Ok tt).
Proof.
  intros (Hc & Hd & Hw)%not_slot_name. unfold object__setattr__.
  rewrite bool_decide_eq_false_2 by (by intros [|]).
  by rewrite bool_decide_eq_false_2.
Qed.

Lemma object_setattr_slot n (v : value) self :
  n ∈ slot_names → ∃ e, object__setattr__ n v self = (self, Raise e).
Proof.
  intros Hn. unfold object__setattr__.
  case_bool_decide as Hcd; [by eexists|].
  case_bool_decide as Hw; [by eexists|].
  destruct (proj2 (not_slot_name n)); [|done]. split_and!; [|  |done].
  - intros ->. apply Hcd. by left.
  - intros ->. apply Hcd. by right.
Qed.

Lemma setattr_run self req n (v : value) :
  self_required_parameters self = Ok req →
  __setattr__ n v self =
    if bool_decide (n ∈ req) then object__setattr__ n v self
    else (self, Raise LookupError).
Proof.
  intros Hreq. unfold __setattr__, bind, read. rewrite Hreq. by case_bool_decide.
Qed.

(** Whatever the instance, a call of the guard either binds the name,
    which then is no slot, or raises and leaves the instance as it
    was. *)
Lemma setattr_cases n (v : value) self :
  (∃ e, __setattr__ n v self = (self, Raise e)) ∨
  ((n ∉ slot_names) ∧
   __setattr__ n v self = (Instance (type self) (<[n := v]> (__dict__ self)), Ok tt)).
Proof.
  unfold __setattr__, bind, read.
  destruct (self_required_parameters self) as [req|e]; [|left; by eexists].
  case_bool_decide; [|left; by eexists].
  destruct (decide (n ∈ slot_names)) as [Hslot|Hslot].
  - left. by apply object_setattr_slot.
  - right. split; [done|]. by apply object_setattr_plain.
Qed.

(** The guard of an instance that has no attribute named
    [required_parameters] tests the names of the class. *)
Lemma setattr_declared self req n (v : value) :
  __dict__ self !! "required_parameters" = None →
  class_getattr required_parameters (type self) = Some req →
  n ∉ slot_names →
  __setattr__ n v self =
    if bool_decide (n ∈ req)
    then (Instance (type self) (<[n := v]> (__dict__ self)), Ok tt)
    else (self, Raise LookupError).
Proof.
  intros Hd Hreq Hslot.
  rewrite (setattr_run _ req) by (by apply self_required_parameters_class).
  case_bool_decide; [|done]. by apply object_setattr_plain.
Qed.

Lemma setattr_undeclared self req n (v : value) :
  __dict__ self !! "required_parameters" = None →
  class_getattr required_parameters (type self) = Some req →
  n ∉ req →
  __setattr__ n v self = (self, Raise LookupError).
Proof.
  intros Hd Hreq Hn.
  rewrite (setattr_run _ req) by (by apply self_required_parameters_class).
  by rewrite bool_decide_eq_false_2.
Qed.

(** A loop of assignments that completes has bound every name, and
    none of them is a slot. *)
Lemma setattr_each_Ok (items : list (string * value)) self self' :
  setattr_each items self = (self', Ok tt) →
  NoDup items.*1 →
  self' = Instance (type self) (list_to_map items ∪ __dict__ self) ∧
  Forall (λ kv, kv.1 ∉ slot_names) items.
Proof.
  revert self. induction items as [|[k v] items IH]; intros self; simpl.
  - intros [= <-] _. rewrite (left_id_L ∅ (∪)). by destruct self.
  - intros Hrun Hnd. inversion Hnd as [|? ? Hk Hnd']; subst.
    unfold bind in Hrun.
    destruct (setattr_cases k v self) as [[e He]|[Hslot He]];
      rewrite He in Hrun; [discriminate Hrun|].
    destruct (IH _ Hrun Hnd') as [-> Hall]. simpl. split; [|by constructor].
    f_equal. rewrite <- insert_union_l, <- insert_union_r; [done|].
    by apply not_elem_of_list_to_map_1.
Qed.

(** On an object of a class whose required names [req] do not include
    [required_parameters], the loop binds every item whose name is in
    [req] and is no slot. *)
Lemma setattr_each_spec cls req (items : list (string * value)) d :
  class_getattr required_parameters cls = Some req →
  "required_parameters" ∉ req →
  d !! "required_parameters" = None →
  NoDup items.*1 →
  Forall (λ kv, kv.1 ∈ req ∧ kv.1 ∉ slot_names) items →
  setattr_each items (Instance cls d) = (Instance cls (list_to_map items ∪ d), Ok tt).
Proof.
  intros Hreq Hplain. revert d.
  induction items as [|[k v] items IH]; intros d Hd Hnd Hall; simpl.
  - by rewrite (left_id_L ∅ (∪)).
  - inversion Hnd as [|? ? Hk Hnd']; subst.
    inversion Hall as [|? ? [Hkreq Hkslot] Hall']; subst. simpl in *.
    unfold bind. rewrite (setattr_declared _ req) by done.
    rewrite bool_decide_eq_true_2 by done. simpl.
    rewrite IH; [| |done..].
    + f_equal. f_equal. rewrite <- insert_union_l, <- insert_union_r; [done|].
      by apply not_elem_of_list_to_map_1.
    + rewrite lookup_insert_ne; [done|]. by intros ->.
Qed.


Lemma required_conditions_plain : "required_conditions" ∉ slot_names.
Proof. by apply not_slot_name. Qed.

(** What a construction from a well-formed class does: it writes the
    merged arguments to the class-level store, checks their names
    against the required ones and runs the loop over them. *)
Lemma new_run cls req kwargs cd :
  declared cls req →
  let args := merged_arguments cd cls kwargs in
  new cls kwargs cd =
    (class_dicts_after cd cls kwargs,
     if bool_decide (sorted (keys args) = sorted req)
     then bind_parameters cls args
     else Raise (AssertionError (mismatch_message (sorted (keys args)) (sorted req)))).
Proof.
  intros (Hdep & Hname & Hreq) args. subst args.
  apply class_hasattr_true in Hdep, Hname.
  assert (class_hasattr required_parameters cls = true) as Hreq'
    by (apply class_hasattr_true; rewrite Hreq; eauto).
  unfold new, __init__, class_dicts_after, merged_arguments, bind_parameters,
    unguarded_attributes.
  unfold bind at 1. unfold hasattr at 1. simpl. rewrite Hdep, orb_true_r.
  unfold bind at 1. unfold assert at 1, ret at 1.
  unfold bind at 1. unfold hasattr at 1. simpl. rewrite Hname, orb_true_r.
  unfold bind at 1. unfold assert at 1, ret at 1.
  unfold bind at 1. unfold hasattr at 1. simpl. rewrite Hreq', orb_true_r.
  unfold bind at 1. unfold assert at 1, ret at 1.
  unfold bind at 1. unfold merge_arguments, bind, get, put, ret. simpl.
  rewrite lookup_empty.
  assert (bool_decide (is_Some ((∅ : gmap string value) !! "required_conditions"))
          = false) as Hfresh by (by rewrite lookup_empty).
  destruct (default_parameters_ref cls) as [[id decl]|]; simpl;
    rewrite Hfresh; simpl;
    destruct (class_hasattr required_conditions cls); simpl;
    unfold on_self; simpl;
    rewrite ?(object_setattr_plain _ _ _ required_conditions_plain); simpl;
    (rewrite (self_required_parameters_class _ req);
       [|by rewrite ?insert_empty, ?lookup_singleton_ne, ?lookup_empty|done]);
    unfold assert;
    (destruct (bool_decide (sorted _ = sorted req)); [|done]); simpl;
    unfold ret; simpl; rewrite ?insert_empty;
    by destruct (setattr_each _ _) as [self' [[]|e]].
Qed.

Lemma ordinary_names (req : list string) :
  ordinary req ↔ ("required_parameters" ∉ req) ∧ ∀ n, n ∈ req → n ∉ slot_names.
Proof.
  unfold ordinary. rewrite Forall_cons, Forall_forall. split.
  - intros [Hrp Hslots]. split; [done|]. intros n Hn Hslot. by apply (Hslots n).
  - intros [Hrp Hslots]. split; [done|]. intros n Hslot Hn. by apply (Hslots n).
Qed.

Lemma unguarded_attributes_lookup cls k :
  k ≠ "required_conditions" → unguarded_attributes cls !! k = None.
Proof.
  intros Hk. unfold unguarded_attributes.
  destruct (class_hasattr required_conditions cls); [done|].
  by rewrite lookup_singleton_ne.
Qed.

(** The loop over merged arguments whose names are the required names
    of a class with ordinary names binds them all. *)
Lemma bind_parameters_ordinary cls req args :
  class_getattr required_parameters cls = Some req →
  ordinary req → keys args ≡ₚ req →
  bind_parameters cls args = Ok (Instance cls (args ∪ unguarded_attributes cls)).
Proof.
  intros Hreq [Hrp Hslots]%ordinary_names Hperm. unfold bind_parameters.
  rewrite (setattr_each_spec _ req); [by rewrite list_to_map_to_list|done..| | |].
  - by apply unguarded_attributes_lookup.
  - apply NoDup_fst_map_to_list.
  - apply Forall_forall. intros [k v] Hin. simpl.
    assert (k ∈ req) as Hk.
    { rewrite <- Hperm. apply keys_elem_of.
      apply elem_of_map_to_list in Hin. eauto. }
    split; [done|]. by apply Hslots.
Qed.

(** A loop that completes has bound all the merged arguments. *)
Lemma bind_parameters_Ok cls args self :
  bind_parameters cls args = Ok self →
  self = Instance cls (args ∪ unguarded_attributes cls) ∧
  ∀ k, is_Some (args !! k) → k ∉ slot_names.
Proof.
  unfold bind_parameters.
  destruct (setattr_each _ _) as [self' [[]|e]] eqn:Hrun; [|done].
  intros [= <-].
  apply setattr_each_Ok in Hrun as [-> Hall]; [|apply NoDup_fst_map_to_list].
  simpl. rewrite list_to_map_to_list. split; [done|].
  intros k [v Hv]. rewrite Forall_forall in Hall.
  by apply (Hall (k, v)), elem_of_map_to_list.
Qed.

(** What a construction from a well-formed class with ordinary names
    does. *)
Lemma new_spec cls req kwargs cd :
  declared cls req → ordinary req →
  let args := merged_arguments cd cls kwargs in
  new cls kwargs cd =
    (class_dicts_after cd cls kwargs,
     if bool_decide (sorted (keys args) = sorted req)
     then Ok (Instance cls (args ∪ unguarded_attributes cls))
     else Raise (AssertionError (mismatch_message (sorted (keys args)) (sorted req)))).
Proof.
  intros Hdecl Hord args. rewrite (new_run _ req) by done. fold args.
  case_bool_decide as Hsorted; [|done]. apply sorted_eq_iff in Hsorted.
  destruct Hdecl as (_ & _ & Hreq). by rewrite (bind_parameters_ordinary _ req).
Qed.

Lemma class_hasattr_false {A} (var : class_body value → option A) cls :
  class_hasattr var cls = false ↔ class_getattr var cls = None.
Proof.
  unfold class_hasattr. rewrite bool_decide_eq_false.
  destruct (class_getattr var cls); split; try done.
  intros []. eauto.
Qed.

(** A class that misses a declaration is refused before anything else
    happens. *)
Lemma new_malformed cls kwargs cd msg :
  declaration_error cls = Some msg →
  new cls kwargs cd = (cd, Raise (AssertionError msg)).
Proof.
  unfold declaration_error, new, __init__.
  unfold bind at 1. unfold hasattr at 1. simpl. rewrite lookup_empty.
  replace (bool_decide (is_Some (@None value))) with false by done. simpl.
  destruct (class_hasattr depname cls); simpl;
    [|intros [= <-]; unfold bind, assert, raise; simpl; done].
  unfold bind at 1. unfold assert at 1, ret at 1.
  unfold bind at 1. unfold hasattr at 1. simpl. rewrite lookup_empty.
  replace (bool_decide (is_Some (@None value))) with false by done. simpl.
  destruct (class_hasattr name cls); simpl;
    [|intros [= <-]; unfold bind, assert, raise; simpl; done].
  unfold bind at 1. unfold assert at 1, ret at 1.
  unfold bind at 1. unfold hasattr at 1. simpl. rewrite lookup_empty.
  replace (bool_decide (is_Some (@None value))) with false by done. simpl.
  destruct (class_hasattr required_parameters cls); simpl;
    [done|intros [= <-]; unfold bind, assert, raise; simpl; done].
Qed.

Lemma declaration_error_None cls :
  declaration_error cls = None → ∃ req, declared cls req.
Proof.
  unfold declaration_error, declared.
  destruct (class_hasattr depname cls) eqn:Hdep; simpl; [|done].
  destruct (class_hasattr name cls) eqn:Hname; simpl; [|done].
  destruct (class_hasattr required_parameters cls) eqn:Hreq; simpl; [|done].
  intros _. apply class_hasattr_true in Hdep, Hname, Hreq.
  destruct Hreq as [req Hreq]. by exists req.
Qed.

Lemma declared_no_error cls req : declared cls req → declaration_error cls = None.
Proof.
  intros (Hdep%class_hasattr_true & Hname%class_hasattr_true & Hreq).
  assert (class_hasattr required_parameters cls = true) as Hreq'
    by (apply class_hasattr_true; rewrite Hreq; eauto).
  unfold declaration_error. by rewrite Hdep, Hname, Hreq'.
Qed.

(** A construction that returns an instance was made from a
    well-formed class. *)
Lemma new_Ok_declared cls kwargs cd cd' self :
  new cls kwargs cd = (cd', Ok self) → ∃ req, declared cls req.
Proof.
  intros Hnew. destruct (declaration_error cls) as [msg|] eqn:Herr.
  - by rewrite (new_malformed _ _ _ msg) in Hnew.
  - by apply declaration_error_None.
Qed.

(** A construction that returns an instance has found the names of the
    merged arguments to be the required names, none of which is a
    slot, and has bound each of them. *)
Lemma new_Ok_inv cls kwargs cd cd' self :
  new cls kwargs cd = (cd', Ok self) →
  ∃ req, declared cls req ∧ keys (merged_arguments cd cls kwargs) ≡ₚ req ∧
         cd' = class_dicts_after cd cls kwargs ∧
         self = Instance cls (merged_arguments cd cls kwargs ∪ unguarded_attributes cls) ∧
         ∀ n, n ∈ req → n ∉ slot_names.
Proof.
  intros Hnew. destruct (new_Ok_declared _ _ _ _ _ Hnew) as [req Hdecl].
  exists req. split; [done|].
  rewrite (new_run _ req) in Hnew by done.
  case_bool_decide as Hsorted; [|by injection Hnew].
  apply sorted_eq_iff in Hsorted.
  injection Hnew as <- Hbind. apply bind_parameters_Ok in Hbind as [-> Hslots].
  split_and!; [done..|].
  intros n Hn. apply Hslots. by rewrite <- Hsorted, keys_elem_of in Hn.
Qed.

(** A constructed instance of a class none of whose parameters is named
    [required_parameters] has no instance attribute of that name. *)
Lemma constructed_unshadowed cls kwargs cd cd' self req k :
  new cls kwargs cd = (cd', Ok self) →
  class_getattr required_parameters cls = Some req →
  k ∉ req → k ≠ "required_conditions" →
  __dict__ self !! k = None.
Proof.
  intros Hnew Hreq Hk Hrc.
  apply new_Ok_inv in Hnew as (req' & (_ & _ & Hreq') & Hperm & _ & -> & _).
  assert (req' = req) as -> by congruence. simpl.
  apply lookup_union_None. split; [|by apply unguarded_attributes_lookup].
  destruct (merged_arguments cd cls kwargs !! k) eqn:Hl; [|done].
  destruct Hk. rewrite <- Hperm. apply keys_elem_of. eauto.
Qed.

(** X16. From a well-formed class with ordinary parameter names,
    construction succeeds exactly when the names of the merged
    arguments (the class-level defaults as they stand at the call,
    overlaid by the keyword arguments) are the required parameter
    names; it then binds every required parameter to its merged value,
    which for a class without defaults is the caller's value.
    Otherwise, and in particular when the merged names are a strict
    subset or a strict superset of the required names, it fails with
    the assertion error whose message gives the sorted provided names
    and the sorted expected names. *)
Theorem construction_succeeds_iff_names_match cls req kwargs cd :
  declared cls req → ordinary req →
  let args := merged_arguments cd cls kwargs in
  let outcome := (new cls kwargs cd).2 in
  let failure :=
    Raise (AssertionError
      ("Provided " +:+ str_of_str_list (sorted (keys args)) +:+
       " arguments, expected " +:+ str_of_str_list (sorted req))) in
  ((∃ self, outcome = Ok self) ↔ keys args ≡ₚ req) ∧
  (keys args ≡ₚ req →
     ∃ self, outcome = Ok self ∧ type self = cls ∧
             ∀ p, p ∈ req → __dict__ self !! p = args !! p) ∧
  (default_parameters_ref cls = None → keys kwargs ≡ₚ req →
     ∃ self, outcome = Ok self ∧ type self = cls ∧
             ∀ p, p ∈ req → __dict__ self !! p = kwargs !! p) ∧
  (¬ keys args ≡ₚ req → outcome = failure) ∧
  (dom args ⊂ list_to_set req ∨ list_to_set req ⊂ dom args → outcome = failure).
Proof.
  intros Hdecl Hord args outcome failure. subst outcome failure.
  rewrite (new_spec _ req) by done. fold args. simpl.
  assert (∀ p, p ∈ req → keys args ≡ₚ req →
            (args ∪ unguarded_attributes cls) !! p = args !! p) as Hbound.
  { intros p Hp Hperm. rewrite <- Hperm in Hp. apply keys_elem_of in Hp as [v Hv].
    rewrite Hv. by apply lookup_union_Some_l. }
  assert (dom args ⊂ list_to_set req ∨ list_to_set req ⊂ dom args →
          ¬ keys args ≡ₚ req) as Hstrict.
  { intros Hsub Hperm.
    assert (dom args = list_to_set req) as Hdom
      by (rewrite <- keys_dom; apply set_eq; intros k;
          by rewrite !elem_of_list_to_set, Hperm).
    rewrite Hdom in Hsub. destruct Hsub as [[_ []]|[_ []]]; done. }
  assert (default_parameters_ref cls = None → args = kwargs) as Hplain.
  { intros Hnone. subst args. unfold merged_arguments. by rewrite Hnone. }
  case_bool_decide as Hsorted; rewrite sorted_eq_iff in Hsorted.
  - split_and!; try done.
    + split; [done|]. intros _. by eexists.
    + intros _. eexists. split_and!; [done..|]. intros p Hp. by apply Hbound.
    + intros Hnone Hkw. eexists. split_and!; [done..|]. intros p Hp.
      rewrite Hbound by done. by rewrite Hplain.
    + intros Hsub. by destruct (Hstrict Hsub).
  - split_and!.
    + split; [by intros [? ?]|done].
    + done.
    + intros Hnone Hkw. destruct Hsorted. by rewrite Hplain.
    + done.
    + done.
Qed.

(** ** The attribute guard *)


(** ** The attributes of an instance *)




(** ** Defaults *)

(** X17. For a class that inherits [default_parameters] and has
    ordinary parameter names: when a construction omits a parameter
    for which the class-level dict, as it stands at the call, holds a
    value, the instance binds the parameter to that value, and when the
    caller supplies a value for it, the instance binds the caller's
    value.  The class-level dict holds the declared defaults as long as
    no construction has written to it. *)
Theorem current_defaults_fill_omitted_parameters cls req id dflt kwargs cd p
    (dv : value) :
  declared cls req → ordinary req →
  default_parameters_ref cls = Some (id, dflt) →
  let defaults := current_defaults cd id dflt in
  keys (kwargs ∪ defaults) ≡ₚ req →
  defaults !! p = Some dv →
  (∃ self, (new cls kwargs cd).2 = Ok self ∧
           (kwargs !! p = None → __dict__ self !! p = Some dv) ∧
           (∀ v, kwargs !! p = Some v → __dict__ self !! p = Some v)) ∧
  (cd !! id = None → defaults = dflt).
Proof.
  intros Hdecl Hord Hdef defaults Hperm Hd.
  split; [|by intros Hfresh; subst defaults; unfold current_defaults; rewrite Hfresh].
  rewrite (new_spec _ req) by done. simpl.
  unfold merged_arguments. rewrite Hdef. fold defaults.
  rewrite bool_decide_eq_true_2 by (by apply sorted_eq_iff).
  eexists. split; [done|]. simpl. split.
  - intros Hnone. apply lookup_union_Some_l.
    by rewrite lookup_union_r.
  - intros v Hv. apply lookup_union_Some_l. by apply lookup_union_Some_l.
Qed.

(** ** Equality *)

Lemma dict_eq_true d1 d2 :
  dict_eq d1 d2 = true ↔
  dom d1 = dom d2 ∧
  ∀ k v w, d1 !! k = Some v → d2 !! k = Some w → v = w ∨ py_eq v w = true.
Proof.
  unfold dict_eq. rewrite andb_true_iff, Nat.eqb_eq, forallb_forall. split.
  - intros [Hsize Hall].
    assert (dom d1 ⊆ dom d2) as Hsub.
    { intros k [v Hv]%elem_of_dom.
      specialize (Hall (k, v)). simpl in Hall.
      destruct (d2 !! k) eqn:Hk; [by apply elem_of_dom|].
      discriminate Hall. apply list_elem_of_In. by apply elem_of_map_to_list. }
    split.
    + apply set_subseteq_size_eq; [done|]. rewrite !size_dom. lia.
    + intros k v w Hv Hw. specialize (Hall (k, v)). simpl in Hall.
      rewrite Hw in Hall.
      rewrite <- (bool_decide_eq_true (v = w)), <- orb_true_iff. apply Hall.
      apply list_elem_of_In. by apply elem_of_map_to_list.
  - intros [Hdom Hall]. split.
    + by rewrite <- !size_dom, Hdom.
    + intros [k v] Hin%list_elem_of_In%elem_of_map_to_list. simpl.
      assert (is_Some (d2 !! k)) as [w Hw]
        by (apply elem_of_dom; rewrite <- Hdom; apply elem_of_dom; eauto).
      rewrite Hw, orb_true_iff, bool_decide_eq_true. eauto.
Qed.

Lemma dict_eq_refl d : dict_eq d d = true.
Proof.
  apply dict_eq_true. split; [done|]. intros k v w Hv Hw. left. congruence.
Qed.

Lemma same_class_refl cls : same_class cls cls = true.
Proof. unfold same_class. by apply bool_decide_eq_true. Qed.

Lemma issubclass_refl cls : issubclass cls cls = true.
Proof.
  destruct cls as [|base body].
  - done.
  - change (same_class (Subclass base body) (Subclass base body)
            || issubclass base (Subclass base body) = true).
    by rewrite same_class_refl.
Qed.

(** [issubclass c d] holds when the identities of [d] end those of [c]. *)
Lemma issubclass_suffix (c d : pyclass value) :
  issubclass c d = true ↔ mro_ids d `suffix_of` mro_ids c.
Proof.
  induction c as [|base IH body]; simpl.
  - rewrite orb_false_r. unfold same_class. rewrite bool_decide_eq_true. simpl.
    split; [by intros <-|]. by intros ->%suffix_nil_inv.
  - rewrite orb_true_iff, IH. unfold same_class. rewrite bool_decide_eq_true. simpl.
    split.
    + intros [Heq|Hsuf]; [by rewrite Heq|by apply suffix_cons_r].
    + intros [[|x k] Hk]; simplify_eq/=; [by left|]. right. by exists k.
Qed.

(** A class and a proper subclass of it are not subclasses of each
    other. *)
Lemma issubclass_antisymm (c d : pyclass value) :
  issubclass c d = true → issubclass d c = true → same_class c d = true.
Proof.
  rewrite !issubclass_suffix. intros Hcd Hdc.
  unfold same_class. apply bool_decide_eq_true. by apply (anti_symm suffix).
Qed.

Lemma same_class_sym (c d : pyclass value) : same_class c d = same_class d c.
Proof. unfold same_class. apply bool_decide_ext. naive_solver. Qed.

Lemma same_class_issubclass (c d : pyclass value) :
  same_class c d = true → issubclass c d = true.
Proof.
  intros Hsame. apply issubclass_suffix.
  unfold same_class in Hsame. apply bool_decide_eq_true in Hsame. by rewrite Hsame.
Qed.

(** [a == b] holds exactly when the two classes are the same and the
    two [__dict__] compare equal. *)
Lemma eq_op_spec self other :
  eq_op self other =
    same_class (type self) (type other) && dict_eq (__dict__ self) (__dict__ other).
Proof.
  unfold eq_op, __eq__, isinstance.
  destruct (same_class (type self) (type other)) eqn:Hsame; simpl.
  - rewrite same_class_sym in Hsame. by rewrite (same_class_issubclass _ _ Hsame).
  - destruct (issubclass (type other) (type self)) eqn:Hsub; [|done].
    destruct (issubclass (type self) (type other)) eqn:Hsub'; [|done].
    rewrite (issubclass_antisymm _ _ Hsub' Hsub) in Hsame. done.
Qed.

(** The [__dict__] of a constructed instance: the required parameters,
    all bound, and beside them only what [__init__] binds without the
    guard. *)
Lemma constructed_dict cls kwargs cd cd' self req :
  new cls kwargs cd = (cd', Ok self) →
  class_getattr required_parameters cls = Some req →
  type self = cls ∧
  (∀ p, p ∈ req → is_Some (__dict__ self !! p)) ∧
  (∀ k, k ∉ req → __dict__ self !! k = unguarded_attributes cls !! k).
Proof.
  intros Hnew Hreq.
  apply new_Ok_inv in Hnew as (req' & (_ & _ & Hreq') & Hperm & _ & -> & _).
  assert (req' = req) as -> by congruence. simpl.
  apply keys_permutation in Hperm as [_ Hin].
  split_and!; [done| |].
  - intros p [v Hv]%Hin. exists v. by apply lookup_union_Some_l.
  - intros k Hk. apply lookup_union_r.
    destruct (merged_arguments cd cls kwargs !! k) eqn:Hl; [|done].
    destruct Hk. apply Hin. eauto.
Qed.

(** C3, as amended.  Two instances compare equal with [==] exactly when
    their classes are the same class and their attributes are bound to
    values that are the same object or compare equal; for two
    constructed instances of one class this is: every required
    parameter is bound to values that are the same object or compare
    equal.  Instances of different classes, a class and a subclass of
    it included, never compare equal. *)
Theorem equal_iff_same_class_and_same_or_equal_values :
  (∀ a b,
     eq_op a b = true ↔
     same_class (type a) (type b) = true ∧
     dom (__dict__ a) = dom (__dict__ b) ∧
     ∀ k v w, __dict__ a !! k = Some v → __dict__ b !! k = Some w →
              v = w ∨ py_eq v w = true) ∧
  (∀ a b, same_class (type a) (type b) = false → eq_op a b = false) ∧
  (∀ cls req kwargs_a kwargs_b cd_a cd_a' cd_b cd_b' a b,
     new cls kwargs_a cd_a = (cd_a', Ok a) →
     new cls kwargs_b cd_b = (cd_b', Ok b) →
     class_getattr required_parameters cls = Some req →
     eq_op a b = true ↔
     ∀ p, p ∈ req →
       ∃ v w, __dict__ a !! p = Some v ∧ __dict__ b !! p = Some w ∧
              (v = w ∨ py_eq v w = true)).
Proof.
  split_and!.
  - intros a b. rewrite eq_op_spec, andb_true_iff, dict_eq_true. done.
  - intros a b Hdiff. by rewrite eq_op_spec, Hdiff.
  - intros cls req kwargs_a kwargs_b cd_a cd_a' cd_b cd_b' a b Ha Hb Hreq.
    destruct (constructed_dict _ _ _ _ _ _ Ha Hreq) as (Hta & Hina & Houta).
    destruct (constructed_dict _ _ _ _ _ _ Hb Hreq) as (Htb & Hinb & Houtb).
    rewrite eq_op_spec, andb_true_iff, dict_eq_true, Hta, Htb, same_class_refl.
    split.
    + intros (_ & _ & Hvals) p Hp.
      destruct (Hina p Hp) as [v Hv], (Hinb p Hp) as [w Hw].
      exists v, w. split_and!; [done..|]. by eapply Hvals.
    + intros Hvals. split_and!; [done| |].
      * apply set_eq. intros k. rewrite !elem_of_dom.
        destruct (decide (k ∈ req)) as [Hk|Hk]; [naive_solver|].
        by rewrite Houta, Houtb.
      * intros k v w Hv Hw.
        destruct (decide (k ∈ req)) as [Hk|Hk].
        { destruct (Hvals k Hk) as (v' & w' & Hv' & Hw' & Heq). congruence. }
        rewrite Houta in Hv by done. rewrite Houtb in Hw by done.
        left. congruence.
Qed.

(** ** Rendering and hashing *)










Variable str_hash : string → Z.


End Facts.

Ltac solve_ordinary := unfold ordinary, slot_names; compute_done.

(** The scenario [BoundConstant(B=1.0)]: the construction succeeds and
    binds [B] to [1.0]. *)
Lemma construction_succeeds_iff_names_match_witness :
  ∃ self, (new BoundConstant.cls Scenario.B_one Scenario.fresh).2 = Ok self ∧
          type self = BoundConstant.cls ∧
          ∀ p, p ∈ ["B"] → __dict__ self !! p = Scenario.B_one !! p.
Proof.
  refine (proj1 (proj2 (proj2
    (construction_succeeds_iff_names_match BoundConstant.cls ["B"] Scenario.B_one
       Scenario.fresh _ _))) _ _).
  - repeat split; eexists; reflexivity.
  - solve_ordinary.
  - reflexivity.
  - vm_compute. reflexivity.
Defined.

(** Scenario 4: [BoundConstant(B=1.0, extra=2.0)] is refused, and the
    message names [extra] among the provided arguments. *)
Example construction_with_extra_argument :
  new BoundConstant.cls Scenario.B_one_extra ∅ =
    (∅, Raise (AssertionError "Provided ['B', 'extra'] arguments, expected ['B']")).
Proof. vm_compute. reflexivity. Qed.

Example construction_of_constant_one :
  new BoundConstant.cls Scenario.B_one ∅ = (∅, Ok Scenario.constant_one).
Proof. vm_compute. reflexivity. Qed.

(** C1, at the failing input.  [__init__] updates the class-level
    [default_parameters] in place, also when it then refuses the
    arguments: [BoundDefaulted(B=1.0, extra=2.0)] leaves [extra] in the
    class-level dict, and the construction [BoundDefaulted(B=1.0)] that
    follows, whose keywords are exactly the required parameters, is
    refused with the message that names [extra]. *)
Theorem valid_arguments_refused_after_stray_keyword :
  let cd1 := (new Scenario.defaulted_cls Scenario.B_one_extra Scenario.fresh).1 in
  class_getattr required_parameters Scenario.defaulted_cls = Some ["B"] ∧
  default_parameters Scenario.defaulted_body = Some Scenario.B_one ∧
  keys Scenario.B_one = ["B"] ∧
  new Scenario.defaulted_cls Scenario.B_one_extra Scenario.fresh
    = (cd1, Raise (AssertionError "Provided ['B', 'extra'] arguments, expected ['B']")) ∧
  new Scenario.defaulted_cls Scenario.B_one cd1
    = (cd1, Raise (AssertionError "Provided ['B', 'extra'] arguments, expected ['B']")).
Proof. vm_compute. repeat split; reflexivity. Qed.





(** [BoundDefaulted()] on the class as declared binds [B] to the
    declared [1.0]. *)
Lemma current_defaults_fill_omitted_parameters_witness :
  ∃ self, (new Scenario.defaulted_cls Scenario.no_arguments Scenario.fresh).2 = Ok self ∧
          __dict__ self !! "B" = Some (VFloat Float.one).
Proof.
  destruct (proj1 (@current_defaults_fill_omitted_parameters pyvalue pyvalue_object
              Scenario.defaulted_cls ["B"]
              5%N Scenario.B_one Scenario.no_arguments Scenario.fresh "B"
              (VFloat Float.one)
              ltac:(repeat split; eexists; reflexivity)
              ltac:(solve_ordinary)
              ltac:(vm_compute; reflexivity)
              ltac:(vm_compute; reflexivity)
              ltac:(vm_compute; reflexivity)))
    as (self & Hnew & Homitted & _).
  exists self. split; [exact Hnew|]. apply Homitted. reflexivity.
Defined.

(** C7, at the failing input.  [__init__] updates the class-level
    [default_parameters] in place: [BoundDefaulted(B=2.0)] writes [2.0]
    into the mapping declared as [{"B": 1.0}], and the construction
    [BoundDefaulted()] that follows binds [B] to [2.0], not to the
    declared default. *)
Theorem construction_overwrites_class_defaults :
  let cd1 := (new Scenario.defaulted_cls Scenario.B_two ∅).1 in
  default_parameters_ref Scenario.defaulted_cls = Some (5%N, Scenario.B_one) ∧
  current_defaults ∅ 5 Scenario.B_one !! "B" = Some (VFloat Float.one) ∧
  current_defaults cd1 5 Scenario.B_one !! "B" = Some (VFloat Float.two) ∧
  (new Scenario.defaulted_cls ∅ cd1).2 =
    Ok (Instance Scenario.defaulted_cls
          (<["required_conditions" := VEmptyList]> Scenario.B_two)).
Proof. vm_compute. repeat split; reflexivity. Qed.

(** C6, at the failing input.  The class [BoundDefaulted] declares the
    default [1.0] for [B]; after [BoundDefaulted(B=2.0)] the
    construction [BoundDefaulted()], which omits [B], succeeds and
    reads [2.0] from its parameter [B], which is not the declared
    default. *)
Theorem omitted_parameter_gets_overwritten_default :
  let cd1 := (new Scenario.defaulted_cls Scenario.B_two Scenario.fresh).1 in
  default_parameters Scenario.defaulted_body = Some Scenario.B_one ∧
  Scenario.B_one !! "B" = Some (VFloat Float.one) ∧
  Scenario.no_arguments !! "B" = None ∧
  (∃ self, new Scenario.defaulted_cls Scenario.no_arguments cd1 = (cd1, Ok self) ∧
           getattr self "B" = Ok (VFloat Float.two)) ∧
  Value.eq (VFloat Float.two) (VFloat Float.one) = false.
Proof.
  split_and!; try (vm_compute; reflexivity).
  eexists. split; vm_compute; reflexivity.
Qed.

(** With [class BoundConstantChild(BoundConstant)]: the method call
    [BoundConstant(B=1.0).__eq__(BoundConstantChild(B=1.0))] answers
    [True], but the comparison with [==] asks the instance of the
    subclass first and is [False] in both directions. *)
Example instance_of_subclass_is_not_equal :
  new Scenario.child_cls Scenario.B_one Scenario.fresh
    = (Scenario.fresh, Ok Scenario.child_one) ∧
  same_class (type Scenario.constant_one) (type Scenario.child_one) = false ∧
  __eq__ Scenario.constant_one Scenario.child_one = true ∧
  eq_op Scenario.constant_one Scenario.child_one = false ∧
  eq_op Scenario.child_one Scenario.constant_one = false.
Proof. vm_compute. repeat split; reflexivity. Qed.

(** Two separately constructed [BoundConstant(B=1.0)] are equal. *)
Lemma equal_iff_same_class_and_same_or_equal_values_witness :
  eq_op Scenario.constant_one Scenario.constant_one = true.
Proof.
  apply (proj2 (proj2 (proj2
           (@equal_iff_same_class_and_same_or_equal_values pyvalue pyvalue_object))
           BoundConstant.cls ["B"] Scenario.B_one Scenario.B_one
           Scenario.fresh Scenario.fresh Scenario.fresh Scenario.fresh
           Scenario.constant_one Scenario.constant_one
           ltac:(vm_compute; reflexivity) ltac:(vm_compute; reflexivity)
           ltac:(vm_compute; reflexivity))).
  intros p Hp. apply list_elem_of_singleton in Hp as ->.
  exists (VFloat Float.one), (VFloat Float.one).
  repeat split; try (vm_compute; reflexivity). by left.
Defined.

(** C3 as stated fails: [a = BoundConstant(B=nan)] compares equal to
    itself, because the comparison of the two [__dict__] accepts the
    same object before it asks [==], although its parameter value does
    not compare equal to itself. *)
Lemma nan_instance_equals_itself :
  new BoundConstant.cls Scenario.B_nan Scenario.fresh
    = (Scenario.fresh, Ok Scenario.constant_nan) ∧
  eq_op Scenario.constant_nan Scenario.constant_nan = true ∧
  getattr Scenario.constant_nan "B" = Ok (VFloat S754_nan) ∧
  Value.eq (VFloat S754_nan) (VFloat S754_nan) = false ∧
  ¬ (eq_op Scenario.constant_nan Scenario.constant_nan = true ↔
     ∀ p, p ∈ ["B"] →
       ∃ v w, __dict__ Scenario.constant_nan !! p = Some v ∧
              __dict__ Scenario.constant_nan !! p = Some w ∧
              Value.eq v w = true).
Proof.
  split_and!; try (vm_compute; reflexivity).
  intros [Hvalues _].
  destruct (Hvalues ltac:(vm_compute; reflexivity) "B" ltac:(compute_done))
    as (v & w & Hv & Hw & Heq).
  vm_compute in Hv, Hw. injection Hv as <-. injection Hw as <-.
  vm_compute in Heq. discriminate Heq.
Qed.

(** With objects at addresses: an instance whose [B] is a NaN equals
    itself and an instance that holds the same NaN object, and is
    unequal to an instance that holds another NaN object. *)
Example nan_objects_are_told_apart :
  new Scenario.constant_class {["B" := Located 1 (VFloat S754_nan)]} ∅
    = (∅, Ok (Scenario.constant_nan_at 1)) ∧
  eq_op (Scenario.constant_nan_at 1) (Scenario.constant_nan_at 1) = true ∧
  eq_op (Scenario.constant_nan_at 1) (Scenario.constant_nan_at 2) = false.
Proof. vm_compute. repeat split; reflexivity. Qed.






(** A class that inherits no [default_parameters] has no class-level
    state for a construction to touch. *)
Lemma construction_without_defaults_keeps_store {value} `{PyObject value}
    (cls : pyclass value) kwargs cd req :
  declared cls req → default_parameters_ref cls = None →
  (new cls kwargs cd).1 = cd.
Proof.
  intros Hdecl Hnone. rewrite (new_run _ req) by done. simpl.
  unfold class_dicts_after. by rewrite Hnone.
Qed.

End DependenceFacts.
(** ** The bound family *)

Module BoundFacts.
Import Dependence DependenceFacts.

Example literals_are_correctly_rounded :
  Float.div Float.one Float.two = Float.half ∧
  (try ten <- Float.of_int 10 ;; Ok (Float.div Float.one ten)) = Ok Float.tenth ∧
  Float.of_int 5 = Ok Float.five ∧ Float.of_int 20 = Ok Float.twenty ∧
  Float.of_int 1 = Ok Float.one ∧ Float.of_int 2 = Ok Float.two ∧
  Float.div Float.five Float.twenty = Float.div Float.half Float.two ∧
  Float.repr Float.three_halves = "1.5" ∧
  Float.repr Float.three_halves_next = "1.5000000000000002".
Proof. vm_compute. repeat split; reflexivity. Qed.

(** The parameters of a constructed instance of a class without
    defaults are the keyword arguments. *)
Lemma getattr_constructed {value} `{PyObject value} (cls : pyclass value)
    kwargs cd cd' self p v :
  new cls kwargs cd = (cd', Ok self) →
  default_parameters_ref cls = None →
  kwargs !! p = Some v →
  getattr self p = Ok v.
Proof.
  intros Hnew Hnone Hp.
  apply new_Ok_inv in Hnew as (req & _ & _ & _ & -> & _).
  unfold getattr, merged_arguments. simpl. rewrite Hnone.
  by rewrite (lookup_union_Some_l _ _ _ v).
Qed.




(** *** The exponential collapse *)










End BoundFacts.

(** * Further properties of construction *)

Module ConstructionFacts.
Import Dependence SortedFacts DependenceFacts.
Section Facts.
Context {value : Type} `{PyObject value}.
Implicit Types (cls : pyclass value) (cd : class_dicts value).
Implicit Types (kwargs args : gmap string value) (self : instance value).

(** X1. A class that misses [depname], [name] or [required_parameters]
    cannot be instantiated: whatever the keyword arguments, the
    construction raises the assertion error of the first declaration
    missing, in this order, and leaves the class-level store as it
    was. *)
Theorem malformed_class_is_refused cls kwargs cd :
  (class_getattr depname cls = None →
     new cls kwargs cd
       = (cd, Raise (AssertionError "Dependence needs a parameter name"))) ∧
  (is_Some (class_getattr depname cls) → class_getattr name cls = None →
     new cls kwargs cd
       = (cd, Raise (AssertionError "Dependence classes need a name"))) ∧
  (is_Some (class_getattr depname cls) → is_Some (class_getattr name cls) →
   class_getattr required_parameters cls = None →
     new cls kwargs cd
       = (cd, Raise (AssertionError "Dependence needs a list of required params"))).
Proof.
  split_and!.
  - intros Hdep%class_hasattr_false. apply new_malformed.
    unfold declaration_error. by rewrite Hdep.
  - intros Hdep%class_hasattr_true Hname%class_hasattr_false. apply new_malformed.
    unfold declaration_error. by rewrite Hdep, Hname.
  - intros Hdep%class_hasattr_true Hname%class_hasattr_true Hreq%class_hasattr_false.
    apply new_malformed. unfold declaration_error. by rewrite Hdep, Hname, Hreq.
Qed.

(** What a construction leaves in the class-level store. *)
Lemma new_store cls kwargs cd :
  (new cls kwargs cd).1 =
    match declaration_error cls with
    | Some _ => cd
    | None => class_dicts_after cd cls kwargs
    end.
Proof.
  destruct (declaration_error cls) as [msg|] eqn:Herr.
  - by rewrite (new_malformed _ _ _ msg).
  - destruct (declaration_error_None _ Herr) as [req Hdecl].
    by rewrite (new_run _ req).
Qed.

Lemma merged_arguments_after cls kwargs cd :
  merged_arguments (class_dicts_after cd cls kwargs) cls kwargs
    = merged_arguments cd cls kwargs.
Proof.
  unfold class_dicts_after, merged_arguments.
  destruct (default_parameters_ref cls) as [[id dflt]|]; [|done].
  unfold current_defaults at 1. unfold class_dicts in *.
  rewrite lookup_insert_eq. simpl.
  by rewrite (assoc_L (∪)), (idemp_L (∪)).
Qed.

Lemma class_dicts_after_after cls kwargs cd :
  class_dicts_after (class_dicts_after cd cls kwargs) cls kwargs
    = class_dicts_after cd cls kwargs.
Proof.
  pose proof (merged_arguments_after cls kwargs cd) as Hm.
  unfold class_dicts_after in *.
  destruct (default_parameters_ref cls) as [[id dflt]|]; [|done].
  unfold class_dicts in *. by rewrite Hm, insert_insert_eq.
Qed.

(** X2. Repeating a construction with the same keyword arguments gives
    the same outcome (the same instance or the same exception) and
    leaves the class-level store as the first construction left it. *)
Theorem construction_is_idempotent cls kwargs cd :
  new cls kwargs (new cls kwargs cd).1 = new cls kwargs cd.
Proof.
  destruct (declaration_error cls) as [msg|] eqn:Herr.
  - by rewrite !(new_malformed _ _ _ msg).
  - destruct (declaration_error_None _ Herr) as [req Hdecl].
    rewrite !(new_run _ req) by done. simpl.
    by rewrite class_dicts_after_after, merged_arguments_after.
Qed.

(** X4. A construction writes to no class-level dict but the
    [default_parameters] its class inherits; a class that inherits none
    leaves the store alone.  The dict it writes to ends up holding the
    caller's values over its previous content, also when the
    construction is then refused for its argument names. *)
Theorem construction_writes_only_its_defaults cls kwargs cd :
  (default_parameters_ref cls = None → (new cls kwargs cd).1 = cd) ∧
  (∀ id dflt, default_parameters_ref cls = Some (id, dflt) →
     (∀ id', id' ≠ id → (new cls kwargs cd).1 !! id' = cd !! id') ∧
     (declaration_error cls = None →
        current_defaults (new cls kwargs cd).1 id dflt
          = kwargs ∪ current_defaults cd id dflt)).
Proof.
  rewrite new_store. unfold class_dicts_after, merged_arguments. split.
  - intros ->. by destruct (declaration_error cls).
  - intros id dflt ->. unfold class_dicts in *. split.
    + intros id' Hne. destruct (declaration_error cls); [done|].
      by rewrite lookup_insert_ne.
    + intros ->. unfold current_defaults at 1. unfold class_dicts.
      by rewrite lookup_insert_eq.
Qed.

(** The names held by the class-level defaults never leave it. *)
Lemma defaults_grow cls id dflt kwargs cd k :
  default_parameters_ref cls = Some (id, dflt) →
  k ∈ dom (current_defaults cd id dflt) →
  k ∈ dom (current_defaults (new cls kwargs cd).1 id dflt).
Proof.
  intros Href Hk. rewrite new_store.
  destruct (declaration_error cls); [done|].
  unfold class_dicts_after, merged_arguments. rewrite Href.
  unfold current_defaults at 1. unfold class_dicts in *.
  rewrite lookup_insert_eq. simpl.
  rewrite dom_union. apply elem_of_union. by right.
Qed.

Lemma defaults_grow_many cls id dflt l cd k :
  default_parameters_ref cls = Some (id, dflt) →
  k ∈ dom (current_defaults cd id dflt) →
  k ∈ dom (current_defaults (store_after_constructions cls l cd) id dflt).
Proof.
  intros Href. unfold store_after_constructions. revert cd.
  induction l as [|kw l IH]; intros cd Hk; simpl; [done|].
  apply IH. by apply defaults_grow.
Qed.

(** A name outside the required parameters among the class-level
    defaults makes every construction fail. *)
Lemma stray_default_refuses cls req id dflt kwargs cd k self :
  declared cls req →
  default_parameters_ref cls = Some (id, dflt) →
  k ∈ dom (current_defaults cd id dflt) → k ∉ req →
  (new cls kwargs cd).2 ≠ Ok self.
Proof.
  intros Hdecl Href Hk Hreq. rewrite (new_run _ req) by done. simpl.
  case_bool_decide as Hsorted; [|done].
  apply sorted_eq_iff in Hsorted. destruct Hreq.
  rewrite <- Hsorted. apply keys_elem_of, elem_of_dom.
  unfold merged_arguments. rewrite Href, dom_union. apply elem_of_union. by right.
Qed.

(** X3. For a class that inherits [default_parameters]: one
    construction called with a keyword that is not a required parameter
    is refused, and from then on every construction from that class is
    refused too, whatever its keyword arguments and however many
    constructions come in between, because the stray keyword stays in
    the class-level dict. *)
Theorem stray_keyword_disables_the_class cls req id dflt kwargs cd k :
  declared cls req →
  default_parameters_ref cls = Some (id, dflt) →
  k ∈ dom kwargs → k ∉ req →
  (∀ self, (new cls kwargs cd).2 ≠ Ok self) ∧
  ∀ (later : list (gmap string value)) kwargs' self,
    (new cls kwargs'
       (store_after_constructions cls later (new cls kwargs cd).1)).2 ≠ Ok self.
Proof.
  intros Hdecl Href Hk Hreq.
  assert (k ∈ dom (current_defaults (new cls kwargs cd).1 id dflt)) as Hstray.
  { rewrite new_store.
    destruct (declaration_error cls) as [msg|] eqn:Herr.
    { by rewrite (declared_no_error _ req) in Herr. }
    unfold class_dicts_after, merged_arguments. rewrite Href.
    unfold current_defaults at 1. unfold class_dicts in *.
    rewrite lookup_insert_eq. simpl.
    rewrite dom_union. apply elem_of_union. by left. }
  split.
  - intros self. rewrite (new_run _ req) by done. simpl.
    case_bool_decide as Hsorted; [|done].
    apply sorted_eq_iff in Hsorted. destruct Hreq.
    rewrite <- Hsorted. apply keys_elem_of, elem_of_dom.
    unfold merged_arguments. rewrite Href, dom_union. apply elem_of_union. by left.
  - intros later kwargs' self.
    apply (stray_default_refuses _ req id dflt _ _ k); [done..| |done].
    by apply defaults_grow_many.
Qed.

End Facts.

(** The abstract class [Bound] declares no [name]: it cannot be
    instantiated. *)
Lemma malformed_class_is_refused_witness :
  new Bound.cls Scenario.B_one Scenario.fresh
    = (Scenario.fresh, Raise (AssertionError "Dependence classes need a name")).
Proof.
  apply (proj1 (proj2 (malformed_class_is_refused Bound.cls Scenario.B_one
                         Scenario.fresh))).
  - eexists. reflexivity.
  - reflexivity.
Defined.

(** After [BoundDefaulted(B=1.0, extra=2.0)], not even
    [BoundDefaulted(B=1.0)] can be constructed. *)
Lemma stray_keyword_disables_the_class_witness :
  ¬ ∃ self,
      (new Scenario.defaulted_cls Scenario.B_one
         (store_after_constructions Scenario.defaulted_cls []
            (new Scenario.defaulted_cls Scenario.B_one_extra Scenario.fresh).1)).2
      = Ok self.
Proof.
  intros [self Hok]. revert Hok.
  apply (proj2 (stray_keyword_disables_the_class Scenario.defaulted_cls ["B"] 5%N
                  Scenario.B_one Scenario.B_one_extra Scenario.fresh "extra"
                  ltac:(repeat split; eexists; reflexivity)
                  ltac:(vm_compute; reflexivity)
                  ltac:(apply elem_of_dom; eexists; vm_compute; reflexivity)
                  ltac:(intros Hin; apply list_elem_of_singleton in Hin;
                        discriminate Hin))
           [] Scenario.B_one self).
Defined.

(** [BoundDefaulted(B=2.0)] leaves [{"B": 2.0}] in the class-level dict. *)
Lemma construction_writes_only_its_defaults_witness :
  current_defaults (new Scenario.defaulted_cls Scenario.B_two Scenario.fresh).1
    5 Scenario.B_one
  = Scenario.B_two ∪ current_defaults Scenario.fresh 5 Scenario.B_one.
Proof.
  apply (proj2 (proj2 (construction_writes_only_its_defaults Scenario.defaulted_cls
                         Scenario.B_two Scenario.fresh) 5%N Scenario.B_one
                  ltac:(vm_compute; reflexivity))).
  vm_compute. reflexivity.
Defined.

End ConstructionFacts.

(** * Further properties of instances *)

Module InstanceFacts.
Import Dependence SortedFacts DependenceFacts.
Section Facts.
Context {value : Type} `{PyObject value}.
Implicit Types (cls : pyclass value) (cd : class_dicts value).
Implicit Types (kwargs args : gmap string value) (self other : instance value).


Lemma after_attempts_cons a l self :
  after_attempts (a :: l) self = after_attempts l (perform a self).1.
Proof. done. Qed.

(** X8. On an instance that has no attribute named
    [required_parameters], of a class with ordinary parameter names:
    after any sequence of assignments and deletions an attribute holds
    the value of the last assignment to it that names a required
    parameter, and otherwise the value it had: refused assignments and
    deletions leave no trace. *)
Theorem attempts_keep_the_last_assignment self req l p :
  class_getattr required_parameters (type self) = Some req →
  ordinary req →
  __dict__ self !! "required_parameters" = None →
  __dict__ (after_attempts l self) !! p =
    match last_assigned req p l with
    | Some v => Some v
    | None => __dict__ self !! p
    end.
Proof.
  intros Hreq [Hrp Hslots]%ordinary_names.
  revert self Hreq. induction l as [|a l IH]; intros self Hreq Hshadow; [done|].
  rewrite after_attempts_cons. simpl.
  assert (type (perform a self).1 = type self ∧
          __dict__ (perform a self).1 !! "required_parameters" = None ∧
          __dict__ (perform a self).1 !! p =
            match a with
            | SetAttr n v => if bool_decide (n = p ∧ n ∈ req) then Some v
                             else __dict__ self !! p
            | DelAttr _ => __dict__ self !! p
            end) as (Hty & Hshadow' & Hstep).
  { destruct a as [n v|n]; simpl; [|done].
    destruct (decide (n ∈ req)) as [Hn|Hn].
    - rewrite (setattr_declared _ req) by auto.
      rewrite bool_decide_eq_true_2 by done. simpl. split_and!; [done| |].
      + rewrite lookup_insert_ne; [done|]. intros ->. by apply Hrp.
      + destruct (decide (n = p)) as [->|Hne].
        * rewrite bool_decide_eq_true_2 by done. by rewrite lookup_insert_eq.
        * rewrite bool_decide_eq_false_2 by (by intros [? _]).
          by rewrite lookup_insert_ne.
    - rewrite (setattr_undeclared _ req) by done. simpl. split_and!; [done..|].
      by rewrite bool_decide_eq_false_2 by (by intros [_ ?]). }
  rewrite IH by (by rewrite ?Hty).
  destruct (last_assigned req p l); [done|].
  rewrite Hstep. destruct a as [n v|n]; [|done]. by case_bool_decide.
Qed.

Lemma dict_eq_sym (d1 d2 : gmap string value) :
  (∀ v w, py_eq v w = py_eq w v) → dict_eq d1 d2 = dict_eq d2 d1.
Proof.
  intros Hsym. apply Bool.eq_iff_eq_true. rewrite !dict_eq_true.
  split; intros [Hdom Hvals]; (split; [done|]);
    intros k v w Hv Hw; (destruct (Hvals k w v Hw Hv) as [->|Heq]; [by left|]);
    right; by rewrite Hsym.
Qed.

(** X9. When the equality of the values is symmetric, so is [==]
    between instances, classes and subclasses included; and every
    instance compares equal to itself, whatever its values, since the
    comparison of the two [__dict__] accepts the same object without
    asking [==]. *)
Theorem instance_equality_is_symmetric :
  ((∀ v w : value, py_eq v w = py_eq w v) →
   ∀ a b : instance value, eq_op a b = eq_op b a) ∧
  (∀ a : instance value, eq_op a a = true).
Proof.
  split.
  - intros Hsym a b. rewrite !eq_op_spec.
    by rewrite same_class_sym, (dict_eq_sym _ _ Hsym).
  - intros a. by rewrite eq_op_spec, same_class_refl, dict_eq_refl.
Qed.

(** X10. A constructed instance of a class whose [name] is the empty
    string, and none of whose parameters is named [name], renders
    without its parameters, as the class name followed by [()]; all
    instances of such a class therefore have one rendering and one
    hash, whatever their parameter values. *)
Theorem empty_name_hides_the_parameters (str_hash : string → Z)
    cls kwargs cd cd' self req :
  new cls kwargs cd = (cd', Ok self) →
  class_getattr name cls = Some EmptyString →
  class_getattr required_parameters cls = Some req →
  "name" ∉ req →
  __repr__ self = Ok (class_name cls +:+ "()") ∧
  __hash__ str_hash self = Ok (str_hash (class_name cls +:+ "()")).
Proof.
  intros Hnew Hname Hreq Hn.
  pose proof (constructed_unshadowed _ _ _ _ _ _ "name" Hnew Hreq Hn ltac:(done))
    as Hn'.
  destruct (constructed_dict _ _ _ _ _ _ Hnew Hreq) as (Hty & _ & _).
  assert (__repr__ self = Ok (class_name cls +:+ "()")) as Hrepr.
  { unfold __repr__.
    rewrite (self_name_truth_class _ EmptyString) by (by rewrite ?Hty).
    cbn [result_bind].
    rewrite bool_decide_eq_false_2 by (intros Hne; by apply Hne).
    cbn [result_bind]. by rewrite Hty. }
  split; [done|].
  unfold __hash__. by rewrite Hrepr.
Qed.

End Facts.

Lemma float_eqb_sym (f g : Float.float) : Float.eqb f g = Float.eqb g f.
Proof.
  unfold Float.eqb, SFeqb.
  destruct f as [[]|[]| |[] m e], g as [[]|[]| |[] m' e']; try reflexivity; simpl;
    assert (Pos.compare_cont Eq m m' = CompOpp (Pos.compare_cont Eq m' m)) as ->
      by (symmetry; apply (Pos.compare_cont_antisym m' m Eq));
    rewrite (Z.compare_antisym e' e);
    destruct (e' ?= e); simpl; try reflexivity;
    by destruct (Pos.compare_cont Eq m' m).
Qed.

Lemma value_eq_sym (a b : pyvalue) : Value.eq a b = Value.eq b a.
Proof.
  destruct a as [m|f|], b as [n|g|]; simpl; try reflexivity.
  - apply Z.eqb_sym.
  - apply float_eqb_sym.
Qed.


(** On a variant with a parameter named [name], rebinding that
    parameter changes what [__repr__] reads where it tests
    [self.name]: [BoundNamed(B=1.0, name=0)] renders as [BoundNamed()],
    and with [name] rebound to [5] it lists its parameters. *)
Example rebinding_name_changes_the_form :
  __repr__ Scenario.named_zero = Ok "BoundNamed()" ∧
  __repr__ (__setattr__ "name" (VInt 5) Scenario.named_zero).1
    = Ok "BoundNamed(B=1.0, name=5)".
Proof. vm_compute. split; reflexivity. Qed.

(** On [BoundConstant(B=1.0)]: after [B = 2.0], a refused [extra = 1]
    and a refused [del B], the attribute [B] is [2.0]. *)
Lemma attempts_keep_the_last_assignment_witness :
  __dict__ (after_attempts
              [SetAttr "B" (VFloat Float.two); SetAttr "extra" (VInt 1); DelAttr "B"]
              Scenario.constant_one) !! "B"
  = Some (VFloat Float.two).
Proof.
  rewrite (@attempts_keep_the_last_assignment pyvalue pyvalue_object
             Scenario.constant_one ["B"])
    by (try (vm_compute; reflexivity); solve_ordinary).
  vm_compute. reflexivity.
Defined.

(** On [BoundShadow(required_parameters=[])] the guard reads the empty
    list bound on the instance: the assignment to the declared
    parameter is refused and leaves no trace. *)
Example shadowed_guard_refuses_the_declared_name :
  __dict__ (after_attempts [SetAttr "required_parameters" (VInt 5)] Scenario.shadow_none)
    !! "required_parameters" = Some VEmptyList.
Proof. vm_compute. reflexivity. Qed.

(** [==] on instances with int, float and list values is symmetric. *)
Lemma instance_equality_is_symmetric_witness :
  eq_op Scenario.constant_one Scenario.child_one
    = eq_op Scenario.child_one Scenario.constant_one.
Proof.
  apply (proj1 (@instance_equality_is_symmetric pyvalue pyvalue_object) value_eq_sym).
Defined.

(** [BoundUnnamed(B=1.0)] renders as [BoundUnnamed()]. *)
Lemma empty_name_hides_the_parameters_witness :
  __repr__ Scenario.unnamed_one = Ok "BoundUnnamed()".
Proof.
  apply (proj1 (@empty_name_hides_the_parameters pyvalue pyvalue_object
                  (λ s, Z.of_nat (String.length s))
                  Scenario.unnamed_cls Scenario.B_one Scenario.fresh Scenario.fresh
                  Scenario.unnamed_one ["B"]
                  ltac:(vm_compute; reflexivity) ltac:(vm_compute; reflexivity)
                  ltac:(vm_compute; reflexivity) ltac:(compute_done))).
Defined.

(** A parameter named [name] is read in the place of the class
    variable: [BoundUN(name=5)], of a class whose [name] is the empty
    string, lists its parameter. *)
Example parameter_called_name_shows_the_parameters :
  class_getattr name Scenario.un_cls = Some EmptyString ∧
  new Scenario.un_cls Scenario.name_five Scenario.fresh
    = (Scenario.fresh, Ok Scenario.un_five) ∧
  __repr__ Scenario.un_five = Ok "BoundUN(name=5)".
Proof. vm_compute. repeat split; reflexivity. Qed.

End InstanceFacts.

(** * Further properties of the bound family *)

Module BoundMoreFacts.
Import Dependence SortedFacts DependenceFacts BoundFacts.

(** On a constructed instance of a class none of whose parameters is
    named [required_parameters], [B_base] tests the required names of
    the class. *)
Lemma B_base_constructed (cls : pyclass pyvalue) kwargs cd cd' self req
    (conditions : gmap string pyvalue) :
  new cls kwargs cd = (cd', Ok self) →
  class_getattr required_parameters cls = Some req →
  "required_parameters" ∉ req →
  Bound.B_base self conditions =
    if bool_decide ("B" ∈ req) then getattr self "B"
    else Raise (AssertionError "B must be a required parameter").
Proof.
  intros Hnew Hreq Hrp.
  pose proof (constructed_unshadowed _ _ _ _ _ _ "required_parameters" Hnew Hreq Hrp
                ltac:(done)) as Hrp'.
  destruct (constructed_dict _ _ _ _ _ _ Hnew Hreq) as (Hty & _ & _).
  unfold Bound.B_base.
  by rewrite (self_required_parameters_class _ req) by (by rewrite ?Hty).
Qed.

(** X5. On a constructed instance of a class none of whose parameters
    is named [required_parameters], [B_base] returns the value bound to
    [B] at construction when [B] is a required parameter of the class,
    and raises the assertion error otherwise. *)
Theorem B_base_is_the_constructed_B (cls : pyclass pyvalue) kwargs cd cd' self req
    (conditions : gmap string pyvalue) :
  new cls kwargs cd = (cd', Ok self) →
  class_getattr required_parameters cls = Some req →
  "required_parameters" ∉ req →
  ("B" ∈ req →
     ∃ b, merged_arguments cd cls kwargs !! "B" = Some b ∧
          Bound.B_base self conditions = Ok b) ∧
  ("B" ∉ req →
     Bound.B_base self conditions
       = Raise (AssertionError "B must be a required parameter")).
Proof.
  intros Hnew Hreq Hrp.
  rewrite (B_base_constructed _ _ _ _ _ _ _ Hnew Hreq Hrp).
  apply new_Ok_inv in Hnew as (req' & (_ & _ & Hreq') & Hperm & _ & -> & _).
  assert (req' = req) as -> by congruence.
  split; intros HB.
  - rewrite bool_decide_eq_true_2 by done.
    rewrite <- Hperm in HB. apply keys_elem_of in HB as [b Hb].
    exists b. split; [done|]. unfold getattr. simpl.
    by rewrite (lookup_union_Some_l _ _ _ b).
  - by rewrite bool_decide_eq_false_2.
Qed.

(** X6. A [BoundConstant] can only be constructed from the single
    keyword [B]; its bound is that [B] at every time and under all
    conditions, and is what [B_base] returns. *)
Theorem constant_bound_ignores_time kwargs cd cd' self :
  new BoundConstant.cls kwargs cd = (cd', Ok self) →
  ∃ b, kwargs = {["B" := b]} ∧
       ∀ t conditions,
         BoundConstant.get_bound self t conditions = Ok b ∧
         Bound.B_base self conditions = Ok b.
Proof.
  intros Hnew.
  pose proof Hnew as Hinv.
  apply new_Ok_inv in Hinv as (req & (_ & _ & Hreq) & Hperm & _ & _).
  injection Hreq as <-.
  change (merged_arguments cd BoundConstant.cls kwargs) with kwargs in Hperm.
  apply keys_permutation in Hperm as [_ Hin].
  destruct (proj1 (Hin "B")) as [b Hb]; [by apply list_elem_of_singleton|].
  exists b. split.
  - apply map_eq. intros k. destruct (decide (k = "B")) as [->|Hne].
    + by rewrite lookup_singleton_eq.
    + rewrite lookup_singleton_ne by done.
      destruct (kwargs !! k) eqn:Hk; [|done].
      destruct Hne. apply list_elem_of_singleton, Hin. eauto.
  - intros t conditions. unfold BoundConstant.get_bound.
    rewrite (B_base_constructed _ _ _ _ _ ["B"] _ Hnew) by (done || compute_done).
    rewrite bool_decide_eq_true_2 by compute_done.
    by rewrite (getattr_constructed _ _ _ _ _ "B" b Hnew).
Qed.

Lemma mul_nan_l (f : Float.float) : Float.mul S754_nan f = S754_nan.
Proof. done. Qed.
Lemma mul_nan_r (f : Float.float) : Float.mul f S754_nan = S754_nan.
Proof. by destruct f. Qed.
Lemma sub_nan_l (f : Float.float) : Float.sub S754_nan f = S754_nan.
Proof. done. Qed.
Lemma sub_nan_r (f : Float.float) : Float.sub f S754_nan = S754_nan.
Proof. by destruct f. Qed.

(** X11. The clamp of the linear bound does not catch a NaN: when the
    bound [B], the slope or the time is a NaN, the bound returned is a
    NaN, not [0.0]. *)
Theorem linear_bound_propagates_nan kwargs cd cd' self (b s t : Float.float)
    conditions :
  new BoundCollapsingLinear.cls kwargs cd = (cd', Ok self) →
  kwargs !! "B" = Some (VFloat b) → kwargs !! "t" = Some (VFloat s) →
  b = S754_nan ∨ s = S754_nan ∨ t = S754_nan →
  BoundCollapsingLinear.get_bound self (VFloat t) conditions = Ok (VFloat S754_nan).
Proof.
  intros Hnew HB Hs Hnan. unfold BoundCollapsingLinear.get_bound.
  rewrite (getattr_constructed _ _ _ _ _ "B" _ Hnew) by done.
  rewrite (getattr_constructed _ _ _ _ _ "t" _ Hnew) by done.
  simpl.
  assert (Float.sub b (Float.mul s t) = S754_nan) as ->; [|done].
  destruct Hnan as [->|[->| ->]].
  - apply sub_nan_l.
  - rewrite mul_nan_l. apply sub_nan_r.
  - rewrite mul_nan_r. apply sub_nan_r.
Qed.

Lemma mul_finite_zero (s : Float.float) sg :
  Float.is_finite s = true → ∃ sg', Float.mul s (S754_zero sg) = S754_zero sg'.
Proof. destruct s; try done; intros _; eexists; reflexivity. Qed.

Lemma sub_zero_r (b : Float.float) sg :
  Float.ltb Float.zero b = true ∨ Float.ltb b Float.zero = true →
  Float.sub b (S754_zero sg) = b.
Proof. destruct b as [[]|[]| |[] m e]; intros [|]; done. Qed.

(** X12. At time zero the linear bound is its parameter [B] when [B] is
    positive and the slope is finite, which is also what [B_base]
    returns, and it is [0.0] when [B] is negative: a negative [B] is
    clamped from the start. *)
Theorem linear_bound_at_time_zero kwargs cd cd' self (b s : Float.float) sg
    conditions :
  new BoundCollapsingLinear.cls kwargs cd = (cd', Ok self) →
  kwargs !! "B" = Some (VFloat b) → kwargs !! "t" = Some (VFloat s) →
  Float.is_finite s = true →
  (Float.ltb Float.zero b = true →
     BoundCollapsingLinear.get_bound self (VFloat (S754_zero sg)) conditions
       = Ok (VFloat b) ∧
     BoundCollapsingLinear.get_bound self (VInt 0) conditions = Ok (VFloat b) ∧
     Bound.B_base self conditions = Ok (VFloat b)) ∧
  (Float.ltb b Float.zero = true →
     BoundCollapsingLinear.get_bound self (VFloat (S754_zero sg)) conditions
       = Ok (VFloat Float.zero) ∧
     BoundCollapsingLinear.get_bound self (VInt 0) conditions
       = Ok (VFloat Float.zero)).
Proof.
  intros Hnew HB Hs Hfin.
  assert (Float.ltb Float.zero b = true ∨ Float.ltb b Float.zero = true →
          ∀ sg0, BoundCollapsingLinear.get_bound self (VFloat (S754_zero sg0)) conditions
            = Value.max (VFloat b) (VFloat Float.zero)) as Hzero.
  { intros Hb sg0. unfold BoundCollapsingLinear.get_bound.
    rewrite (getattr_constructed _ _ _ _ _ "B" _ Hnew) by done.
    rewrite (getattr_constructed _ _ _ _ _ "t" _ Hnew) by done.
    simpl. destruct (mul_finite_zero s sg0 Hfin) as [sg' ->].
    by rewrite sub_zero_r. }
  assert (BoundCollapsingLinear.get_bound self (VInt 0) conditions
          = BoundCollapsingLinear.get_bound self (VFloat (S754_zero false)) conditions)
    as Hint.
  { unfold BoundCollapsingLinear.get_bound.
    rewrite (getattr_constructed _ _ _ _ _ "B" _ Hnew) by done.
    rewrite (getattr_constructed _ _ _ _ _ "t" _ Hnew) by done.
    done. }
  rewrite Hint. split; intros Hb; rewrite !Hzero by auto; unfold Value.max; simpl.
  - assert (Float.ltb b Float.zero = false) as ->
      by (by destruct b as [[]|[]| |[] m e]).
    split_and!; [done..|].
    rewrite (B_base_constructed _ _ _ _ _ ["B"; "t"] _ Hnew) by (done || compute_done).
    rewrite bool_decide_eq_true_2 by compute_done.
    by rewrite (getattr_constructed _ _ _ _ _ "B" (VFloat b) Hnew).
  - by rewrite Hb.
Qed.

(** X13. On int parameters and an int time the linear bound is exact:
    it is the int [B - slope * time], or the float [0.0] when that is
    negative; and for a slope that is not negative it never increases
    with time. *)
Theorem linear_bound_on_ints kwargs cd cd' self (b s : Z) conditions :
  new BoundCollapsingLinear.cls kwargs cd = (cd', Ok self) →
  kwargs !! "B" = Some (VInt b) → kwargs !! "t" = Some (VInt s) →
  (∀ t : Z,
     BoundCollapsingLinear.get_bound self (VInt t) conditions
       = Ok (if b - s * t <? 0 then VFloat Float.zero else VInt (b - s * t))) ∧
  (0 ≤ s → ∀ t1 t2 : Z, t1 ≤ t2 →
     ∃ r1 r2,
       BoundCollapsingLinear.get_bound self (VInt t1) conditions = Ok r1 ∧
       BoundCollapsingLinear.get_bound self (VInt t2) conditions = Ok r2 ∧
       Value.gt r2 r1 = Ok false).
Proof.
  intros Hnew HB Hs.
  assert (∀ t : Z,
     BoundCollapsingLinear.get_bound self (VInt t) conditions
       = Ok (if b - s * t <? 0 then VFloat Float.zero else VInt (b - s * t)))
    as Hexact.
  { intros t. unfold BoundCollapsingLinear.get_bound.
    rewrite (getattr_constructed _ _ _ _ _ "B" _ Hnew) by done.
    rewrite (getattr_constructed _ _ _ _ _ "t" _ Hnew) by done.
    simpl. unfold Value.max. simpl.
    destruct (Z.ltb_spec (b - s * t) 0) as [Hlt|Hge].
    - by rewrite (proj2 (Z.compare_lt_iff _ _) Hlt).
    - destruct (b - s * t ?= 0) eqn:Hcmp; try done.
      apply (proj1 (Z.compare_lt_iff _ _)) in Hcmp. lia. }
  split; [done|].
  intros Hslope t1 t2 Ht. rewrite !Hexact. eexists _, _. split_and!; [done..|].
  assert (b - s * t2 ≤ b - s * t1) as Hle by nia.
  destruct (Z.ltb_spec (b - s * t2) 0) as [H2|H2],
           (Z.ltb_spec (b - s * t1) 0) as [H1|H1]; simpl.
  - done.
  - destruct (b - s * t1 ?= 0) eqn:Hcmp; try done.
    apply (proj1 (Z.compare_lt_iff _ _)) in Hcmp. lia.
  - lia.
  - f_equal. apply Z.ltb_ge. lia.
Qed.

(** [BoundConstant(B=1.0)] returns [1.0] from [B_base]. *)
Lemma B_base_is_the_constructed_B_witness :
  ∃ b, merged_arguments Scenario.fresh BoundConstant.cls Scenario.B_one !! "B" = Some b ∧
       Bound.B_base Scenario.constant_one ∅ = Ok b.
Proof.
  apply (proj1 (B_base_is_the_constructed_B BoundConstant.cls Scenario.B_one
                  Scenario.fresh Scenario.fresh Scenario.constant_one ["B"] ∅
                  ltac:(vm_compute; reflexivity) ltac:(vm_compute; reflexivity)
                  ltac:(compute_done))).
  apply list_elem_of_singleton. reflexivity.
Defined.

(** Scenario 1: [BoundConstant(B=1.0)] is [1.0] at time [0] and at time
    [100]. *)
Lemma constant_bound_ignores_time_witness :
  BoundConstant.get_bound Scenario.constant_one (VInt 0) ∅ = Ok (VFloat Float.one) ∧
  BoundConstant.get_bound Scenario.constant_one (VInt 100) ∅ = Ok (VFloat Float.one).
Proof.
  destruct (constant_bound_ignores_time Scenario.B_one Scenario.fresh Scenario.fresh
              Scenario.constant_one ltac:(vm_compute; reflexivity))
    as (b & Hkw & Hbound).
  assert (b = VFloat Float.one) as ->.
  { assert (Scenario.B_one !! "B" = ({["B" := b]} : gmap string pyvalue) !! "B") as Hb
      by (by rewrite <- Hkw).
    rewrite lookup_singleton_eq in Hb. vm_compute in Hb. by injection Hb as <-. }
  split; apply Hbound.
Defined.

(** [BoundCollapsingLinear(B=nan, t=0.1)] is a NaN at time [20.0]. *)
Lemma linear_bound_propagates_nan_witness :
  BoundCollapsingLinear.get_bound
    (Instance BoundCollapsingLinear.cls
       (<["required_conditions" := VEmptyList]>
          (<["t" := VFloat Float.tenth]> {["B" := VFloat S754_nan]})))
    (VFloat Float.twenty) ∅
  = Ok (VFloat S754_nan).
Proof.
  apply (linear_bound_propagates_nan
           (<["t" := VFloat Float.tenth]> {["B" := VFloat S754_nan]})
           Scenario.fresh Scenario.fresh _ S754_nan Float.tenth Float.twenty ∅).
  - vm_compute. reflexivity.
  - vm_compute. reflexivity.
  - vm_compute. reflexivity.
  - by left.
Defined.

(** [BoundCollapsingLinear(B=1.0, t=0.1)] is [1.0] at time [0.0]. *)
Lemma linear_bound_at_time_zero_witness :
  BoundCollapsingLinear.get_bound Scenario.linear_one_tenth (VFloat Float.zero) ∅
    = Ok (VFloat Float.one).
Proof.
  apply (proj1 (linear_bound_at_time_zero Scenario.B_one_slope_tenth
                  Scenario.fresh Scenario.fresh Scenario.linear_one_tenth
                  Float.one Float.tenth false ∅
                  ltac:(vm_compute; reflexivity) ltac:(vm_compute; reflexivity)
                  ltac:(vm_compute; reflexivity) ltac:(reflexivity))).
  reflexivity.
Defined.

(** [BoundCollapsingLinear(B=1, t=2)] is the float [0.0] at time [3]. *)
Lemma linear_bound_on_ints_witness :
  BoundCollapsingLinear.get_bound Scenario.linear_ints (VInt 3) ∅
    = Ok (VFloat Float.zero).
Proof.
  apply (proj1 (linear_bound_on_ints Scenario.B_int_one_slope_two
                  Scenario.fresh Scenario.fresh Scenario.linear_ints 1 2 ∅
                  ltac:(vm_compute; reflexivity) ltac:(vm_compute; reflexivity)
                  ltac:(vm_compute; reflexivity)) 3).
Defined.

End BoundMoreFacts.

(** * Further properties of equality and hashing *)

Module EqualityFacts.
Import Dependence SortedFacts DependenceFacts.
Section Facts.
Context {value : Type} `{PyObject value}.
Implicit Types (a b : instance value).

(** X14. The method [__eq__] on its own is one-sided: it answers
    [False] for an object whose class is not the class of [self] or
    derived from it, while for an instance of a proper subclass it
    compares the two [__dict__]; asked the other way round, the
    instance of the subclass answers [False]. *)
Theorem method_eq_is_one_sided a b :
  (issubclass (type b) (type a) = false → __eq__ a b = false) ∧
  (issubclass (type b) (type a) = true →
   same_class (type a) (type b) = false →
   __eq__ a b = dict_eq (__dict__ a) (__dict__ b) ∧ __eq__ b a = false).
Proof.
  unfold __eq__, isinstance. split.
  - by intros ->.
  - intros Hsub Hdiff. rewrite Hsub. split; [done|].
    destruct (issubclass (type a) (type b)) eqn:Hsub'; [|done].
    by rewrite (issubclass_antisymm _ _ Hsub' Hsub) in Hdiff.
Qed.


End Facts.

(** [BoundConstant(B=1.0).__eq__(BoundConstantChild(B=1.0))] compares
    the two dicts and [BoundConstantChild(B=1.0).__eq__(BoundConstant(B=1.0))]
    is [False]. *)
Lemma method_eq_is_one_sided_witness :
  __eq__ Scenario.constant_one Scenario.child_one
    = dict_eq (__dict__ Scenario.constant_one) (__dict__ Scenario.child_one) ∧
  __eq__ Scenario.child_one Scenario.constant_one = false.
Proof.
  apply (proj2 (@method_eq_is_one_sided pyvalue pyvalue_object
                  Scenario.constant_one Scenario.child_one)).
  - vm_compute. reflexivity.
  - vm_compute. reflexivity.
Defined.


End EqualityFacts.
